(** * CloudGuard AI, ML service: prediction engine and digital-twin manager

    A shallow embedding of [ai-service/main.py]: the feature preparer
    ([preprocess_metrics]), the three prediction functions of
    [CloudMetricsPredictor], the twin registry of [DigitalTwinEngine] and the
    [/predict] endpoint.

    Modelling conventions.
    - Python floats are exact rationals ([Q]); rounding, NaN and infinities
      are outside the model.  Equality of numbers is [Qeq] ([==]); a divisor
      or factor written [100.0] in the source is the number 100.
      Where a result is decided by a comparison of computed floats (the
      anomaly flag against 0.1, the cost trend against 70) the exact model
      would decide differently from binary64 at the boundary: module
      [Binary64] embeds [detect_anomalies] and [predict_cost] again over
      IEEE 754 binary64, NaN and infinities included, and the properties of
      these decisions are proved there.
    - A Python dict literal is a [gmap] from its string keys to Python values.
    - Exceptions, the twin registry and the collaborators (random generator,
      Keras models, Redis, InfluxDB, logger, clock) are threaded through a
      state-and-exception monad [Py].  Every call that leaves the process is
      recorded in an event log, so that "is called" and "is logged" are
      statements about the log. *)

From Stdlib Require Import QArith Lqa PrimFloat Uint63.
From stdpp Require Import gmap strings list fin_maps.

Open Scope string_scope.
Open Scope list_scope.

Set Warnings "-inexact-float".

(** ** Numbers *)

(** [a < b] on floats, as a boolean. *)
Definition Qltb (a b : Q) : bool := negb (Qle_bool b a).

(** [min(a, b)]: the first argument unless the second is smaller. *)
Definition py_min (a b : Q) : Q := if Qltb b a then b else a.

(** [sum(xs)] and [np.mean(xs)]: the arithmetic mean of a sequence, exact
    here; [Binary64.np_mean] is the rounded one. *)
Definition Qsum (xs : list Q) : Q := foldl Qplus 0%Q xs.

Definition np_mean (xs : list Q) : Q :=
  (Qsum xs / inject_Z (Z.of_nat (length xs)))%Q.

(** ** Python values *)

#[warnings="-register-all"]
Inductive pyval : Type :=
  | VNone
  | VBool (b : bool)
  | VInt (z : Z)
  | VFloat (q : Q)
  | VStr (s : string)
  | VDict (d : gmap string pyval).

(** A dict, as the prediction functions return it. *)
Abbreviation pydict := (gmap string pyval).

(** The number a value stands for, where it is one. *)
Definition num_of (v : pyval) : option Q :=
  match v with
  | VInt z => Some (inject_Z z)
  | VFloat q => Some q
  | VBool b => Some (if b then 1%Q else 0%Q)
  | _ => None
  end.

(** ** Pydantic models *)

Record MetricData : Type := mkMetric {
  timestamp : Z;
  m_resource_id : string;
  cpu : Q;
  memory : Q;
  disk : Q;
  network : Q
}.

Record PredictionRequest : Type := mkRequest {
  req_resource_id : string;
  req_metrics : list MetricData;
  prediction_type : string
}.

Record DigitalTwinState : Type := mkTwin {
  resource_id : string;
  state : pydict;
  predictions : option pydict;
  accuracy : Q
}.

(** ** The feature preparer

    [np.array(xs).reshape(1, -1)] is a matrix of one row; the row is the
    value here. *)

(** [xs[-k:]] for a positive [k]. *)
Definition last_k {A} (k : nat) (xs : list A) : list A :=
  drop (length xs - k) xs.

(** The body of a [for x in xs: acc.extend(f x)] loop. *)
Definition extend_each {A B} (f : A -> list B) (acc : list B) (xs : list A) : list B :=
  foldl (fun acc x => acc ++ f x) acc xs.

Definition raw_fields (m : MetricData) : list Q :=
  [cpu m; memory m; disk m; network m].

Definition scaled_fields (m : MetricData) : list Q :=
  [cpu m / 100; memory m / 100; disk m / 100; network m / 100]%Q.

Definition preprocess_metrics (metrics : list MetricData) : list Q :=
  if (length metrics <? 10)%nat then
    let padding_needed := (10 - length metrics)%nat in
    let padded_data := extend_each (fun _ : nat => [0.0; 0.0; 0.0; 0.0]%Q) [] (seq 0 padding_needed) in
    extend_each raw_fields padded_data metrics
  else
    let recent_metrics := last_k 10 metrics in
    extend_each scaled_fields [] recent_metrics.

(** ** Exceptions and outcomes

    Every exception of the service is an instance of Python's [Exception]:
    FastAPI's [HTTPException], and whatever a library call raises.  An
    [except Exception] clause therefore catches every [exn]. *)

Inductive exn : Type :=
  | HTTPException (status_code : Z) (detail : string)
  | Exception (what : string).

Inductive Outcome (A : Type) : Type :=
  | Return (a : A)
  | Raise (e : exn).
Arguments Return {A} a.
Arguments Raise {A} e.

(** ** Collaborators and the event log *)

(** The keys of [CloudMetricsPredictor.models]. *)
Inductive ModelKey : Type := Performance | Anomaly | Cost.

(** An InfluxDB [Point("digital_twin_metrics")]. *)
Record Point : Type := mkPoint {
  measurement : string;
  tag_resource_id : string;
  field_cpu : Q;
  field_memory : Q;
  field_disk : Q;
  field_network : Q;
  field_accuracy : Q;
  time_ns : Z
}.

Inductive Event : Type :=
  | EModelPredict (key : ModelKey) (features : list Q)
  | ERedisSetex (key : string) (ttl : Z) (value : string)
  | EInfluxWriteApi
  | EInfluxWrite (p : Point)
  | ELogError (msg : string).

(** What the service does not implement itself.  A call may change the
    collaborator's own state ([World]) and, where Python can raise, may raise.
    [np.random.random()] draws from the half-open interval [0, 1). *)
Class Collaborators : Type := {
  World : Type;
  np_random : World -> Q * World;
  np_random_range : forall w, (0 <= fst (np_random w) < 1)%Q;
  keras_predict : ModelKey -> list Q -> World -> Outcome (list Q) * World;
  redis_setex : string -> Z -> string -> World -> Outcome unit * World;
  influx_write_api : World -> Outcome unit * World;
  influx_write : Point -> World -> Outcome unit * World;
  json_dumps : pyval -> Outcome string;
  datetime_now_isoformat : World -> string * World;
  str_exn : exn -> string
}.

(** ** The interpreter state and the monad *)

Record PyState `{C : Collaborators} : Type := mkState {
  twins : gmap string DigitalTwinState;
  world : World;
  log : list Event
}.
Arguments mkState {_} _ _ _.

Definition Py `{C : Collaborators} (A : Type) : Type := PyState -> Outcome A * PyState.

Section monad.
Context `{C : Collaborators}.

Definition ret {A} (a : A) : Py A := fun s => (Return a, s).

Definition raise {A} (e : exn) : Py A := fun s => (Raise e, s).

Definition bind {A B} (m : Py A) (k : A -> Py B) : Py B :=
  fun s => match m s with
           | (Return a, s') => k a s'
           | (Raise e, s') => (Raise e, s')
           end.

(** [try: body except Exception as e: handler e] *)
Definition try_except {A} (body : Py A) (handler : exn -> Py A) : Py A :=
  fun s => match body s with
           | (Return a, s') => (Return a, s')
           | (Raise e, s') => handler e s'
           end.

Definition emit (ev : Event) : Py unit :=
  fun s => (Return tt, mkState (twins s) (world s) (log s ++ [ev])).

(** A collaborator call, acting on the world only. *)
Definition call {A} (f : World -> Outcome A * World) : Py A :=
  fun s => let '(o, w) := f (world s) in (o, mkState (twins s) w (log s)).

Definition call_total {A} (f : World -> A * World) : Py A :=
  call (fun w => let '(a, w') := f w in (Return a, w')).

Definition lift_outcome {A} (o : Outcome A) : Py A :=
  fun s => (o, s).

Definition get_twins : Py (gmap string DigitalTwinState) :=
  fun s => (Return (twins s), s).

Definition set_twin (rid : string) (t : DigitalTwinState) : Py unit :=
  fun s => (Return tt, mkState (<[rid := t]> (twins s)) (world s) (log s)).
End monad.

#[global] Instance Py_ret `{C : Collaborators} : MRet Py := @ret _.
#[global] Instance Py_bind `{C : Collaborators} : MBind Py := fun A B k m => bind m k.

Section service.
Context `{C : Collaborators}.

(** [for x in xs: body x] *)
Fixpoint for_each {A} (xs : list A) (body : A -> Py unit) : Py unit :=
  match xs with
  | [] => ret tt
  | x :: xs' => body x;; for_each xs' body
  end.

Definition logger_error (msg : string) : Py unit := emit (ELogError msg).

(** [self.models[key].predict(row, verbose=0)]; the result is row 0 of the
    returned matrix. *)
Definition model_predict (key : ModelKey) (row : list Q) : Py (list Q) :=
  emit (EModelPredict key row);; call (keras_predict key row).

Definition random_random : Py Q := call_total np_random.

Definition redis_client_setex (key : string) (ttl : Z) (value : string) : Py unit :=
  emit (ERedisSetex key ttl value);; call (redis_setex key ttl value).

(** [xs[i]] *)
Definition index (xs : list Q) (i : nat) : Py Q :=
  match xs !! i with
  | Some x => ret x
  | None => raise (Exception "IndexError: index out of bounds")
  end.

(** [a - b] for a row [a] of width 4 and a row [b], as numpy broadcasts. *)
Definition np_sub (a b : list Q) : Py (list Q) :=
  if (length b =? length a)%nat then ret (zip_with Qminus a b)
  else match b with
       | [y] => ret (map (fun x => x - y)%Q a)
       | _ => raise (Exception "ValueError: operands could not be broadcast together")
       end.

Definition np_square (xs : list Q) : list Q := map (fun x => x * x)%Q xs.

(** *** CloudMetricsPredictor *)

Definition predict_performance (metrics : list MetricData) : Py pydict :=
  try_except
    (let processed_data := preprocess_metrics metrics in
     prediction ← model_predict Performance processed_data;
     p0 ← index prediction 0;
     p1 ← index prediction 1;
     p2 ← index prediction 2;
     p3 ← index prediction 3;
     r ← random_random;
     ret ({[ "predicted_cpu" := VFloat (p0 * 100);
             "predicted_memory" := VFloat (p1 * 100);
             "predicted_disk" := VFloat (p2 * 100);
             "predicted_network" := VFloat (p3 * 100);
             "confidence" := VFloat (0.85 + r * 0.1);
             "prediction_horizon" := VStr "1 hour" ]} : pydict))
    (fun e =>
       logger_error ("Performance prediction error: " +:+ str_exn e);;
       ret ({[ "error" := VStr (str_exn e) ]} : pydict)).

(** The comparisons [anomaly_score > 0.1] below and [avg_cpu > 70] in
    [predict_cost] are exact here; what the program decides at these
    thresholds is proved on [Binary64]. *)
Definition detect_anomalies (metrics : list MetricData) : Py pydict :=
  try_except
    (if (length metrics <? 1)%nat then
       ret ({[ "anomaly_score" := VFloat 0.0; "is_anomaly" := VBool false ]} : pydict)
     else
       match last metrics with
       | None => raise (Exception "IndexError: list index out of range")
       | Some latest_metric =>
           let input_data := scaled_fields latest_metric in
           reconstruction ← model_predict Anomaly input_data;
           diff ← np_sub input_data reconstruction;
           let anomaly_score := np_mean (np_square diff) in
           ret ({[ "anomaly_score" := VFloat anomaly_score;
                   "is_anomaly" := VBool (Qltb 0.1 anomaly_score);
                   "threshold" := VFloat 0.1;
                   "confidence" := VFloat 0.92 ]} : pydict)
       end)
    (fun e =>
       logger_error ("Anomaly detection error: " +:+ str_exn e);;
       ret ({[ "error" := VStr (str_exn e) ]} : pydict)).

(** [max(0, x)]: the integer 0 unless [x] is greater. *)
Definition max_0 (x : Q) : pyval :=
  if Qltb 0 x then VFloat x else VInt 0.

Definition one_hot (resource_type expected : string) : Q :=
  if String.eqb resource_type expected then 1.0%Q else 0.0%Q.

(** The [features] row of [predict_cost]. *)
Definition cost_features (metrics : list MetricData) (resource_type : string) : list Q :=
  let avg_cpu := np_mean (map cpu metrics) in
  let avg_memory := np_mean (map memory metrics) in
  let avg_disk := np_mean (map disk metrics) in
  let avg_network := np_mean (map network metrics) in
  [ avg_cpu / 100; avg_memory / 100; avg_disk / 100; avg_network / 100;
    inject_Z (Z.of_nat (length metrics));
    one_hot resource_type "compute";
    one_hot resource_type "database";
    one_hot resource_type "storage" ]%Q.

Definition predict_cost (metrics : list MetricData) (resource_type : string) : Py pydict :=
  try_except
    (if (length metrics <? 1)%nat then
       ret ({[ "predicted_cost" := VFloat 0.0 ]} : pydict)
     else
       let avg_cpu := np_mean (map cpu metrics) in
       let features := cost_features metrics resource_type in
       cost_prediction ← model_predict Cost features;
       c0 ← index cost_prediction 0;
       let base_cost := (c0 * 100)%Q in
       ret ({[ "predicted_daily_cost" := VFloat base_cost;
               "predicted_monthly_cost" := VFloat (base_cost * 30);
               "cost_trend" := VStr (if Qltb 70 avg_cpu then "increasing" else "stable");
               "optimization_potential" := max_0 ((100 - avg_cpu) * 0.01 * base_cost) ]} : pydict))
    (fun e =>
       logger_error ("Cost prediction error: " +:+ str_exn e);;
       ret ({[ "error" := VStr (str_exn e) ]} : pydict)).

(** The default of [predict_cost]'s second parameter. *)
Definition default_resource_type : string := "compute".

(** *** DigitalTwinEngine

    [self.twins] holds the twin objects themselves: [update_twin] mutates
    the object it finds there and returns it, so the registry entry and the
    returned twin are one value. *)

(** [twin.dict()] *)
Definition twin_dict (twin : DigitalTwinState) : pyval :=
  VDict {[ "resource_id" := VStr (resource_id twin);
           "state" := VDict (state twin);
           "predictions" := match predictions twin with
                            | Some p => VDict p
                            | None => VNone
                            end;
           "accuracy" := VFloat (accuracy twin) ]}.

Definition create_twin (rid : string) (initial_state : pydict) : Py DigitalTwinState :=
  r ← random_random;
  let twin := mkTwin rid initial_state None (0.75 + r * 0.2) in
  set_twin rid twin;;
  payload ← lift_outcome (json_dumps (twin_dict twin));
  redis_client_setex ("twin:" +:+ rid) 3600 payload;;
  ret twin.

Definition point_of (twin : DigitalTwinState) (metric : MetricData) : Point :=
  mkPoint "digital_twin_metrics" (resource_id twin)
          (cpu metric) (memory metric) (disk metric) (network metric)
          (accuracy twin) (timestamp metric).

(** The body of the [try] of [store_twin_data]: the hand-off itself. *)
Definition write_points (twin : DigitalTwinState) (metrics : list MetricData) : Py unit :=
  emit EInfluxWriteApi;; call influx_write_api;;
  for_each metrics (fun metric =>
    let point := point_of twin metric in
    emit (EInfluxWrite point);; call (influx_write point)).

Definition store_twin_data (twin : DigitalTwinState) (metrics : list MetricData) : Py unit :=
  try_except
    (write_points twin metrics)
    (fun e => logger_error ("Failed to store twin data: " +:+ str_exn e)).

Definition update_twin (rid : string) (metrics : list MetricData) : Py DigitalTwinState :=
  tw ← get_twins;
  match tw !! rid with
  | None => create_twin rid {[ "status" := VStr "active" ]};; ret tt
  | Some _ => ret tt
  end;;
  tw ← get_twins;
  match tw !! rid with
  | None => raise (Exception "KeyError")
  | Some twin =>
      performance ← predict_performance metrics;
      anomaly ← detect_anomalies metrics;
      cost ← predict_cost metrics default_resource_type;
      let predictions : pydict :=
        {[ "performance" := VDict performance;
           "anomaly" := VDict anomaly;
           "cost" := VDict cost ]} in
      let twin := mkTwin (resource_id twin) (state twin) (Some predictions)
                         (py_min 0.99 (accuracy twin + 0.001)) in
      set_twin rid twin;;
      store_twin_data twin metrics;;
      ret twin
  end.

(** *** The [/predict] endpoint *)

Definition predict_metrics (request : PredictionRequest) : Py pydict :=
  try_except
    (result ←
       (if String.eqb (prediction_type request) "performance" then
          predict_performance (req_metrics request)
        else if String.eqb (prediction_type request) "anomaly" then
          detect_anomalies (req_metrics request)
        else if String.eqb (prediction_type request) "cost" then
          predict_cost (req_metrics request) default_resource_type
        else
          raise (HTTPException 400 "Invalid prediction type"));
     let cache_key :=
       "prediction:" +:+ req_resource_id request +:+ ":" +:+ prediction_type request in
     payload ← lift_outcome (json_dumps (VDict result));
     redis_client_setex cache_key 300 payload;;
     now ← call_total datetime_now_isoformat;
     ret ({[ "resource_id" := VStr (req_resource_id request);
             "prediction_type" := VStr (prediction_type request);
             "result" := VDict result;
             "timestamp" := VStr now ]} : pydict))
    (fun e =>
       logger_error ("Prediction error: " +:+ str_exn e);;
       raise (HTTPException 500 (str_exn e))).

(** The response status the framework sends for an outcome of an endpoint. *)
Definition http_status {A} (o : Outcome A) : Z :=
  match o with
  | Return _ => 200
  | Raise (HTTPException code _) => code
  | Raise (Exception _) => 500
  end.
End service.

(** ** States the service can be in

    The process starts with an empty registry; afterwards the registry and
    the log change only through the endpoints, which call [create_twin],
    [update_twin] and [predict_metrics].  The collaborators have a life of
    their own: between two calls the world may become any other. *)

Inductive reachable `{C : Collaborators} : PyState -> Prop :=
  | reach_start w : reachable (mkState ∅ w [])
  | reach_create rid initial_state s :
      reachable s -> reachable (snd (create_twin rid initial_state s))
  | reach_update rid metrics s :
      reachable s -> reachable (snd (update_twin rid metrics s))
  | reach_predict request s :
      reachable s -> reachable (snd (predict_metrics request s))
  | reach_world w s :
      reachable s -> reachable (mkState (twins s) w (log s)).

(** The accuracy the registry holds for a resource. *)
Definition accuracy_of `{C : Collaborators} (rid : string) (s : PyState) : option Q :=
  accuracy <$> twins s !! rid.

(** [update_twin] called once per batch; the accuracy held after each call. *)
Fixpoint update_many `{C : Collaborators} (rid : string) (batches : list (list MetricData))
    (s : PyState) : list (option Q) :=
  match batches with
  | [] => []
  | metrics :: rest =>
      let s' := snd (update_twin rid metrics s) in
      accuracy_of rid s' :: update_many rid rest s'
  end.

(** ** Assertions about programs

    [hoare P m Q E]: from a state satisfying [P], [m] ends in a state
    satisfying [Q a] when it returns [a] and [E e] when it raises [e]. *)

Section assertions.
Context `{C : Collaborators}.

Definition hoare {A} (P : PyState -> Prop) (m : Py A)
    (Q : A -> PyState -> Prop) (E : exn -> PyState -> Prop) : Prop :=
  forall s, P s ->
    match m s with
    | (Return a, s') => Q a s'
    | (Raise e, s') => E e s'
    end.

(** [keeps Jt Jl]: the registry satisfies [Jt] and every logged event [Jl].
    Collaborator calls act on the world only, so they keep any such
    invariant. *)
Definition keeps (Jt : gmap string DigitalTwinState -> Prop) (Jl : Event -> Prop)
    (s : PyState) : Prop :=
  Jt (twins s) /\ Forall Jl (log s).

(** [m] maintains the invariant, however it ends. *)
Definition maintains {A} (Jt : gmap string DigitalTwinState -> Prop) (Jl : Event -> Prop)
    (m : Py A) : Prop :=
  hoare (keeps Jt Jl) m (fun _ => keeps Jt Jl) (fun _ => keeps Jt Jl).

(** [m] maintains the invariant and never raises. *)
Definition safe {A} (Jt : gmap string DigitalTwinState -> Prop) (Jl : Event -> Prop)
    (m : Py A) : Prop :=
  hoare (keeps Jt Jl) m (fun _ => keeps Jt Jl) (fun _ _ => False).

End assertions.

(** ** Notions of the specification *)

(** Mean CPU utilisation over a window. *)
Definition mean_cpu (metrics : list MetricData) : Q :=
  (Qsum (map cpu metrics) / inject_Z (Z.of_nat (length metrics)))%Q.

(** A scoring call on the cost model has a row of width 8 whose
    resource-type flags say "compute". *)
Definition cost_call_is_compute (ev : Event) : Prop :=
  match ev with
  | EModelPredict Cost features =>
      exists a b c d n, features = [a; b; c; d; n; 1.0; 0.0; 0.0]%Q
  | _ => True
  end.

(** Every twin of a registry has an accuracy between 0.75 and 0.99. *)
Definition accuracy_bounded (tw : gmap string DigitalTwinState) : Prop :=
  forall rid t, tw !! rid = Some t -> (0.75 <= accuracy t <= 0.99)%Q.

(** The invariant on the log that accepts every event. *)
Definition any_event (ev : Event) : Prop := True.

(** The twin [create_twin] builds from a draw [r], and the twin [update_twin]
    leaves for a twin [t] and a set of predictions. *)
Definition created (rid : string) (initial_state : pydict) (r : Q) : DigitalTwinState :=
  mkTwin rid initial_state None (0.75 + r * 0.2).

Definition updated (t : DigitalTwinState) (preds : pydict) : DigitalTwinState :=
  mkTwin (resource_id t) (state t) (Some preds) (py_min 0.99 (accuracy t + 0.001)).

(** ** A concrete set of collaborators, to run the service on

    The generator cycles through twentieths; the models answer one half on
    every output, the performance model only on rows of the width it was
    built for ([input_shape=(10,)]); Redis and InfluxDB are reachable or not
    as the world says. *)

Module Demo.
Record world : Type := mkWorld {
  seed : nat;
  redis_up : bool;
  influx_up : bool
}.

Definition random (w : world) : Q * world :=
  (inject_Z (Z.of_nat (seed w mod 20)) / 20, mkWorld (S (seed w)) (redis_up w) (influx_up w))%Q.

Definition predict (key : ModelKey) (row : list Q) (w : world) : Outcome (list Q) * world :=
  match key with
  | Performance =>
      if (length row =? 10)%nat then (Return [0.5; 0.5; 0.5; 0.5]%Q, w)
      else (Raise (Exception "ValueError: incompatible input shape"), w)
  | Anomaly => (Return [0.5; 0.5; 0.5; 0.5]%Q, w)
  | Cost => (Return [0.5%Q], w)
  end.

Definition setex (key : string) (ttl : Z) (value : string) (w : world) : Outcome unit * world :=
  if redis_up w then (Return tt, w)
  else (Raise (Exception "redis: connection refused"), w).

Definition write_api (w : world) : Outcome unit * world :=
  (Return tt, w).

Definition write (p : Point) (w : world) : Outcome unit * world :=
  if influx_up w then (Return tt, w)
  else (Raise (Exception "influx: connection refused"), w).

Definition dumps (v : pyval) : Outcome string := Return "{}".

Definition now (w : world) : string * world := ("2024-01-01T00:00:00", w).

Definition str (e : exn) : string :=
  match e with
  | HTTPException _ detail => detail
  | Exception what => what
  end.

#[export] Instance collaborators : Collaborators.
Proof.
  refine {| World := world; np_random := random; keras_predict := predict;
            redis_setex := setex; influx_write_api := write_api;
            influx_write := write; json_dumps := dumps;
            datetime_now_isoformat := now; str_exn := str |}.
  intros w. unfold random, Qle, Qlt, Qdiv. cbn.
  pose proof (Nat.mod_upper_bound (seed w) 20). lia.
Defined.

Definition sample (c : Q) : MetricData := mkMetric 0 "r1" c 60 40 20.

Definition start (redis influx : bool) : PyState :=
  mkState ∅ (mkWorld 0 redis influx) [].

(** Three samples with cpu=80, memory=60, disk=40, network=20. *)
Definition window3 : list MetricData := [sample 80; sample 80; sample 80].

(** Eleven samples, of cpu 1 to 11. *)
Definition window11 : list MetricData :=
  map (fun k => sample (inject_Z k)) [1; 2; 3; 4; 5; 6; 7; 8; 9; 10; 11]%Z.

(** A registry with one twin, Redis and InfluxDB both unreachable. *)
Definition offline_with_twin : PyState :=
  mkState {[ "r1" := mkTwin "r1" ∅ None 0.8 ]} (mkWorld 0 false false) [].

Definition unknown_request : PredictionRequest := mkRequest "r1" [] "latency".
End Demo.

(** ** The remaining endpoints

    [get_digital_twin], the two twin endpoints and [retrain_models] need more
    of the collaborators: reading the cache, decoding JSON, querying InfluxDB
    and the logger's info lines.  Reads and info lines are not events of the
    log: it records the writes, the model calls and the error lines. *)

Class Backend `{C : Collaborators} : Type := {
  redis_get : string -> World -> Outcome (option string) * World;
  json_loads : string -> Outcome pyval;
  influx_query_api : World -> Outcome unit * World;
  influx_query : World -> Outcome unit * World;
  logger_info : string -> World -> World
}.

Section endpoints.
Context `{B : Backend}.

(** [if cached:] on the answer of [redis_client.get]: [None] and the empty
    string are false. *)
Definition truthy (cached : option string) : bool :=
  match cached with
  | Some text => negb (String.eqb text "")
  | None => false
  end.

Definition create_digital_twin (rid : string) (initial_state : pydict) : Py pyval :=
  twin ← create_twin rid initial_state;
  ret (twin_dict twin).

Definition update_digital_twin (rid : string) (metrics : list MetricData) : Py pyval :=
  twin ← update_twin rid metrics;
  ret (twin_dict twin).

Definition get_digital_twin (rid : string) : Py pyval :=
  cached ← call (redis_get ("twin:" +:+ rid));
  if truthy cached then
    match cached with
    | Some text => lift_outcome (json_loads text)
    | None => raise (Exception "TypeError")
    end
  else
    tw ← get_twins;
    match tw !! rid with
    | Some twin => ret (twin_dict twin)
    | None => raise (HTTPException 404 "Digital twin not found")
    end.

Definition info (msg : string) : Py unit :=
  call_total (fun w => (tt, logger_info msg w)).

(** The query text of [retrain_models] is fixed; [influx_query] is
    [query_api.query] on it.  Its tables are not used. *)
Definition retrain_models : Py unit :=
  try_except
    (info "Starting model retraining...";;
     call influx_query_api;;
     call influx_query;;
     info "Model retraining completed")
    (fun e => logger_error ("Retraining error: " +:+ str_exn e)).

End endpoints.

(** ** Further notions *)

(** A sample whose four readings are percentages. *)
Definition percentages (m : MetricData) : Prop :=
  (0 <= cpu m <= 100 /\ 0 <= memory m <= 100
   /\ 0 <= disk m <= 100 /\ 0 <= network m <= 100)%Q.

(** Every twin is stored under its own resource id. *)
Definition keyed_by_id (tw : gmap string DigitalTwinState) : Prop :=
  forall rid t, tw !! rid = Some t -> resource_id t = rid.

(** The three resource types [predict_cost] knows. *)
Definition known_resource_type (resource_type : string) : Prop :=
  resource_type = "compute" \/ resource_type = "database" \/ resource_type = "storage".

(** The prediction function [predict_metrics] dispatches a request to, if
    its type is one of the three. *)
Definition predictor_for `{C : Collaborators} (request : PredictionRequest)
    : option (Py pydict) :=
  if String.eqb (prediction_type request) "performance" then
    Some (predict_performance (req_metrics request))
  else if String.eqb (prediction_type request) "anomaly" then
    Some (detect_anomalies (req_metrics request))
  else if String.eqb (prediction_type request) "cost" then
    Some (predict_cost (req_metrics request) default_resource_type)
  else None.

(** The cache key of a prediction. *)
Definition prediction_key (request : PredictionRequest) : string :=
  "prediction:" +:+ req_resource_id request +:+ ":" +:+ prediction_type request.

(** The InfluxDB events of a hand-off that wrote the first [k] samples. *)
Definition points_written (twin : DigitalTwinState) (metrics : list MetricData) (k : nat)
    : list Event :=
  EInfluxWriteApi :: map (fun metric => EInfluxWrite (point_of twin metric)) (take k metrics).

(** ** Collaborators that fail, and a cache that remembers *)

Module Faulty.
(** The models are broken: every [predict] raises. *)
Definition predict (key : ModelKey) (row : list Q) (w : Demo.world)
    : Outcome (list Q) * Demo.world :=
  (Raise (Exception "model: not fitted"), w).

#[export] Instance collaborators : Collaborators :=
  {| World := Demo.world;
     np_random := Demo.random;
     np_random_range := np_random_range (Collaborators := Demo.collaborators);
     keras_predict := predict;
     redis_setex := Demo.setex;
     influx_write_api := Demo.write_api;
     influx_write := Demo.write;
     json_dumps := Demo.dumps;
     datetime_now_isoformat := Demo.now;
     str_exn := Demo.str |}.

Definition start : PyState := mkState ∅ (Demo.mkWorld 0 true true) [].
End Faulty.

Module Cached.
(** Redis as a map from keys to values (expiry left out); the generator
    always draws one half. *)
Definition world : Type := gmap string string.

Definition random (w : world) : Q * world := (0.5%Q, w).

Definition setex (key : string) (ttl : Z) (value : string) (w : world)
    : Outcome unit * world :=
  (Return tt, <[key := value]> w).

Definition get (key : string) (w : world) : Outcome (option string) * world :=
  (Return (w !! key), w).

Definition dumps (v : pyval) : Outcome string := Return "{}".

Definition loads (text : string) : Outcome pyval := Return (VDict ∅).

Definition ok (w : world) : Outcome unit * world := (Return tt, w).

#[export] Instance collaborators : Collaborators.
Proof.
  refine {| World := world; np_random := random;
            keras_predict := fun key row w => (Return [0.5; 0.5; 0.5; 0.5]%Q, w);
            redis_setex := setex; influx_write_api := ok;
            influx_write := fun _ => ok; json_dumps := dumps;
            datetime_now_isoformat := fun w => ("2024-01-01T00:00:00", w);
            str_exn := Demo.str |}.
  intros w. cbn. split; [discriminate | reflexivity].
Defined.

#[export] Instance backend : Backend (C := collaborators) :=
  @Build_Backend collaborators get loads ok ok (fun _ w => w).

Definition start : PyState := mkState ∅ (∅ : world) [].

(** A cache that holds a text for "r1", beside an empty registry. *)
Definition holding : world := {[ "twin:r1" := "{}" ]}.

Definition warm : PyState := mkState ∅ holding [].
End Cached.

Module DemoBackend.
(** The cache of [Demo] is always empty, and down with Redis. *)
Definition get (key : string) (w : Demo.world) : Outcome (option string) * Demo.world :=
  if Demo.redis_up w then (Return None, w)
  else (Raise (Exception "redis: connection refused"), w).

Definition query (w : Demo.world) : Outcome unit * Demo.world :=
  if Demo.influx_up w then (Return tt, w)
  else (Raise (Exception "influx: connection refused"), w).

#[export] Instance backend : Backend (C := Demo.collaborators) :=
  @Build_Backend Demo.collaborators get (fun _ => Return (VDict ∅))
                 Demo.write_api query (fun _ w => w).
End DemoBackend.

(** ** The threshold decisions, in binary64

    [detect_anomalies] and [predict_cost] over Rocq's primitive floats, which
    are IEEE 754 binary64 like Python's [float] and numpy's [float64]: a
    literal is the double nearest to it, [/], [-], [*] round to nearest even,
    [<?] is false on NaN.  The order in which [np.mean] adds is numpy's own
    and not in the source: [np_mean] is a collaborator, like the Keras
    models.  [predict] returns row 0 of the model's answer, its [float32]
    entries as the doubles they are. *)

Module Binary64.

Inductive pyval : Type :=
  | VBool (b : bool)
  | VInt (z : Z)
  | VFloat (x : float)
  | VStr (s : string).

Abbreviation pydict := (gmap string pyval).

Record MetricData : Type := mkMetric {
  timestamp : Z;
  resource_id : string;
  cpu : float;
  memory : float;
  disk : float;
  network : float
}.

Inductive Event : Type :=
  | EModelPredict (key : ModelKey) (features : list float)
  | ELogError (msg : string).

Class Numerics : Type := {
  World : Type;
  keras_predict : ModelKey -> list float -> World -> Outcome (list float) * World;
  np_mean : list float -> float;
  str_exn : exn -> string
}.

Record PyState `{N : Numerics} : Type := mkState {
  world : World;
  log : list Event
}.
Arguments mkState {_} _ _.

Definition Py `{N : Numerics} (A : Type) : Type := PyState -> Outcome A * PyState.

Section functions.
Context `{N : Numerics}.

Definition ret {A} (a : A) : Py A := fun s => (Return a, s).

Definition raise {A} (e : exn) : Py A := fun s => (Raise e, s).

Definition bind {A B} (m : Py A) (k : A -> Py B) : Py B :=
  fun s => match m s with
           | (Return a, s') => k a s'
           | (Raise e, s') => (Raise e, s')
           end.

Definition try_except {A} (body : Py A) (handler : exn -> Py A) : Py A :=
  fun s => match body s with
           | (Return a, s') => (Return a, s')
           | (Raise e, s') => handler e s'
           end.

Definition emit (ev : Event) : Py unit :=
  fun s => (Return tt, mkState (world s) (log s ++ [ev])).

Definition call {A} (f : World -> Outcome A * World) : Py A :=
  fun s => let '(o, w) := f (world s) in (o, mkState w (log s)).

#[global] Instance Py_ret : MRet Py := @ret.
#[global] Instance Py_bind : MBind Py := fun A B k m => bind m k.

Definition logger_error (msg : string) : Py unit := emit (ELogError msg).

Definition model_predict (key : ModelKey) (row : list float) : Py (list float) :=
  emit (EModelPredict key row);; call (keras_predict key row).

Definition index (xs : list float) (i : nat) : Py float :=
  match xs !! i with
  | Some x => ret x
  | None => raise (Exception "IndexError: index out of bounds")
  end.

(** [len(xs)] as a float; exact below 2^53. *)
Definition float_of_len (n : nat) : float :=
  PrimFloat.of_uint63 (Uint63.of_Z (Z.of_nat n)).

Definition scaled_fields (m : MetricData) : list float :=
  [cpu m / 100.0; memory m / 100.0; disk m / 100.0; network m / 100.0]%float.

(** [a - b] for a row [a] of width 4 and a row [b], as numpy broadcasts. *)
Definition np_sub (a b : list float) : Py (list float) :=
  if (length b =? length a)%nat then ret (zip_with PrimFloat.sub a b)
  else match b with
       | [y] => ret (map (fun x => x - y)%float a)
       | _ => raise (Exception "ValueError: operands could not be broadcast together")
       end.

Definition np_square (xs : list float) : list float := map (fun x => x * x)%float xs.

Definition detect_anomalies (metrics : list MetricData) : Py pydict :=
  try_except
    (if (length metrics <? 1)%nat then
       ret ({[ "anomaly_score" := VFloat 0.0; "is_anomaly" := VBool false ]} : pydict)
     else
       match last metrics with
       | None => raise (Exception "IndexError: list index out of range")
       | Some latest_metric =>
           let input_data := scaled_fields latest_metric in
           reconstruction ← model_predict Anomaly input_data;
           diff ← np_sub input_data reconstruction;
           let anomaly_score := np_mean (np_square diff) in
           ret ({[ "anomaly_score" := VFloat anomaly_score;
                   "is_anomaly" := VBool (0.1 <? anomaly_score)%float;
                   "threshold" := VFloat 0.1;
                   "confidence" := VFloat 0.92 ]} : pydict)
       end)
    (fun e =>
       logger_error ("Anomaly detection error: " +:+ str_exn e);;
       ret ({[ "error" := VStr (str_exn e) ]} : pydict)).

(** [max(0, x)]: the integer 0 unless [x] is greater. *)
Definition max_0 (x : float) : pyval :=
  if (0 <? x)%float then VFloat x else VInt 0.

Definition one_hot (resource_type expected : string) : float :=
  if String.eqb resource_type expected then 1.0%float else 0.0%float.

Definition cost_features (metrics : list MetricData) (resource_type : string) : list float :=
  let avg_cpu := np_mean (map cpu metrics) in
  let avg_memory := np_mean (map memory metrics) in
  let avg_disk := np_mean (map disk metrics) in
  let avg_network := np_mean (map network metrics) in
  [ avg_cpu / 100.0; avg_memory / 100.0; avg_disk / 100.0; avg_network / 100.0;
    float_of_len (length metrics);
    one_hot resource_type "compute";
    one_hot resource_type "database";
    one_hot resource_type "storage" ]%float.

Definition predict_cost (metrics : list MetricData) (resource_type : string) : Py pydict :=
  try_except
    (if (length metrics <? 1)%nat then
       ret ({[ "predicted_cost" := VFloat 0.0 ]} : pydict)
     else
       let avg_cpu := np_mean (map cpu metrics) in
       let features := cost_features metrics resource_type in
       cost_prediction ← model_predict Cost features;
       c0 ← index cost_prediction 0;
       let base_cost := (c0 * 100)%float in
       ret ({[ "predicted_daily_cost" := VFloat base_cost;
               "predicted_monthly_cost" := VFloat (base_cost * 30);
               "cost_trend" := VStr (if (70 <? avg_cpu)%float
                                     then "increasing" else "stable");
               "optimization_potential" :=
                 max_0 ((100 - avg_cpu) * 0.01 * base_cost) ]} : pydict))
    (fun e =>
       logger_error ("Cost prediction error: " +:+ str_exn e);;
       ret ({[ "error" := VStr (str_exn e) ]} : pydict)).

(** *** Notions of the specification *)

(** [x] strictly exceeds [threshold], as binary64 compares: false when
    either is NaN. *)
Definition exceeds (x threshold : float) : Prop := (threshold <? x)%float = true.

(** Reconstruction error: the mean of the squared differences between the
    input and the output of the autoencoder. *)
Definition mean_squared_error (input output : list float) : float :=
  np_mean (zip_with (fun x y => (x - y) * (x - y))%float input output).

(** Mean CPU utilisation over a window. *)
Definition mean_cpu (metrics : list MetricData) : float :=
  np_mean (map cpu metrics).

End functions.

(** *** Numerics to run on: [np.mean] adds from left to right and divides by
    the count; the models answer one half on every output. *)

Definition sequential_mean (xs : list float) : float :=
  (foldl PrimFloat.add 0 xs / float_of_len (length xs))%float.

Definition demo_predict (key : ModelKey) (row : list float) (w : unit)
    : Outcome (list float) * unit :=
  match key with
  | Cost => (Return [0.5%float], w)
  | _ => (Return [0.5; 0.5; 0.5; 0.5]%float, w)
  end.

#[export] Instance demo : Numerics :=
  {| World := unit; keras_predict := demo_predict; np_mean := sequential_mean;
     str_exn := Demo.str |}.

Definition start : PyState := mkState tt [].

(** A sample whose reconstruction error is the double 0.1 itself. *)
Definition boundary_sample : MetricData :=
  mkMetric 0 "r1" 17 72 97 64.76482306023341.

(** Two CPU readings whose binary64 mean is 70 itself. *)
Definition boundary_window : list MetricData :=
  [mkMetric 0 "r1" 70.0 60 40 20; mkMetric 1 "r1" 70.00000000000001 60 40 20].

End Binary64.

(** * Properties *)

(** ** Numbers *)

Lemma Qltb_lt (a b : Q) : Qltb a b = true <-> (a < b)%Q.
Proof.
  unfold Qltb. rewrite negb_true_iff, <- not_true_iff_false, Qle_bool_iff.
  split; [apply Qnot_le_lt | apply Qlt_not_le].
Qed.

Lemma Qltb_ge (a b : Q) : Qltb a b = false <-> (b <= a)%Q.
Proof.
  unfold Qltb. rewrite negb_false_iff. apply Qle_bool_iff.
Qed.

Lemma py_min_le_l (a b : Q) : (py_min a b <= a)%Q.
Proof.
  unfold py_min. destruct (Qltb b a) eqn:E.
  - apply Qltb_lt in E. lra.
  - lra.
Qed.

Lemma py_min_ge (a b c : Q) : (c <= a)%Q -> (c <= b)%Q -> (c <= py_min a b)%Q.
Proof.
  intros Ha Hb. unfold py_min. destruct (Qltb b a); assumption.
Qed.

Lemma py_min_r (a b : Q) : (b <= a)%Q -> (py_min a b == b)%Q.
Proof.
  intros Hle. unfold py_min. destruct (Qltb b a) eqn:E.
  - reflexivity.
  - apply Qltb_ge in E. lra.
Qed.

(** ** The feature preparer *)

Lemma extend_each_concat {A B} (f : A -> list B) (acc : list B) (xs : list A) :
  extend_each f acc xs = acc ++ concat (map f xs).
Proof.
  unfold extend_each. revert acc.
  induction xs as [|x xs IH]; intros acc; simpl.
  - by rewrite app_nil_r.
  - by rewrite IH, app_assoc.
Qed.

Lemma concat_const_replicate {A B} (row : list B) (xs : list A) :
  concat (map (fun _ => row) xs) = concat (replicate (length xs) row).
Proof.
  induction xs as [|x xs IH]; simpl; [done | by rewrite IH].
Qed.

Lemma concat_replicate_four {B} (z : B) (k : nat) :
  concat (replicate k [z; z; z; z]) = replicate (4 * k) z.
Proof.
  induction k as [|k IH]; [done|].
  replace (4 * S k)%nat with (S (S (S (S (4 * k))))) by lia.
  simpl. by rewrite IH.
Qed.

Lemma length_concat_four {A B} (f : A -> list B) (xs : list A) :
  (forall x, length (f x) = 4%nat) -> length (concat (map f xs)) = (4 * length xs)%nat.
Proof.
  intros Hf. induction xs as [|x xs IH]; simpl; [done|].
  rewrite length_app, Hf, IH. lia.
Qed.

(** The padded row, in closed form. *)
Lemma preprocess_metrics_short (metrics : list MetricData) :
  (length metrics < 10)%nat ->
  preprocess_metrics metrics =
    replicate (4 * (10 - length metrics)) 0.0%Q ++ concat (map raw_fields metrics).
Proof.
  intros Hlen. unfold preprocess_metrics.
  apply Nat.ltb_lt in Hlen as ->.
  rewrite !extend_each_concat, app_nil_l.
  by rewrite concat_const_replicate, length_seq, concat_replicate_four.
Qed.

(** The row of a full window, in closed form. *)
Lemma preprocess_metrics_long (metrics : list MetricData) :
  (10 <= length metrics)%nat ->
  preprocess_metrics metrics =
    concat (map scaled_fields (drop (length metrics - 10) metrics)).
Proof.
  intros Hlen. unfold preprocess_metrics, last_k.
  apply Nat.ltb_ge in Hlen as ->.
  by rewrite extend_each_concat.
Qed.

Lemma lookup_concat_four {A B} (f : A -> list B) (xs : list A) (i j : nat) (x : A) :
  (forall y, length (f y) = 4%nat) -> xs !! i = Some x -> (j < 4)%nat ->
  concat (map f xs) !! (4 * i + j)%nat = f x !! j.
Proof.
  intros Hf. revert i.
  induction xs as [|x0 xs IH]; intros i Hi Hj; [done|].
  change (concat (map f (x0 :: xs))) with (f x0 ++ concat (map f xs)).
  destruct i as [|i].
  - injection Hi as ->. by rewrite lookup_app_l by (rewrite Hf; lia).
  - rewrite lookup_app_r by (rewrite Hf; lia). rewrite Hf.
    replace (4 * S i + j - 4)%nat with (4 * i + j)%nat by lia.
    by apply IH.
Qed.

Lemma lookup_after_padding {B} (z : B) (k p : nat) (l : list B) :
  (replicate k z ++ l) !! (k + p)%nat = l !! p.
Proof.
  rewrite lookup_app_r by (rewrite length_replicate; lia).
  rewrite length_replicate. f_equal. lia.
Qed.

(** C2. A window of n < 10 samples (n = 0 included) gives a row of width
    exactly 40: its first 4*(10-n) entries are 0.0 and the remaining 4*n are
    the cpu, memory, disk and network values of the n samples, in order and
    as given, not divided by 100. *)
Theorem preprocess_metrics_pads_raw (metrics : list MetricData) :
  (length metrics < 10)%nat ->
  let n := length metrics in
  let row := preprocess_metrics metrics in
  length row = 40%nat
  /\ take (4 * (10 - n)) row = replicate (4 * (10 - n)) 0.0%Q
  /\ drop (4 * (10 - n)) row
     = concat (map (fun m => [cpu m; memory m; disk m; network m]) metrics)
  /\ forall i m, metrics !! i = Some m ->
       row !! (4 * (10 - n) + (4 * i + 0))%nat = Some (cpu m)
       /\ row !! (4 * (10 - n) + (4 * i + 1))%nat = Some (memory m)
       /\ row !! (4 * (10 - n) + (4 * i + 2))%nat = Some (disk m)
       /\ row !! (4 * (10 - n) + (4 * i + 3))%nat = Some (network m).
Proof.
  intros Hlen n row. subst row.
  rewrite (preprocess_metrics_short _ Hlen). fold n.
  assert (Hpad : length (replicate (4 * (10 - n)) 0.0%Q) = (4 * (10 - n))%nat)
    by apply length_replicate.
  split; [|split; [|split]].
  - rewrite length_app, Hpad, (length_concat_four raw_fields) by done. subst n. lia.
  - by rewrite take_app_length'.
  - by rewrite drop_app_length'.
  - intros i m Hi. rewrite !lookup_after_padding.
    by rewrite !(lookup_concat_four raw_fields metrics i _ m) by (done || lia).
Qed.

(** C7. A window of at least 10 samples gives the cpu, memory, disk and
    network values of exactly its last 10 samples, in order, each divided by
    100: a row of width 40. *)
Theorem preprocess_metrics_scales_last_ten (metrics : list MetricData) :
  (10 <= length metrics)%nat ->
  let recent := drop (length metrics - 10) metrics in
  let row := preprocess_metrics metrics in
  length recent = 10%nat
  /\ (forall i, (i < 10)%nat -> recent !! i = metrics !! (length metrics - 10 + i)%nat)
  /\ length row = 40%nat
  /\ row = concat (map (fun m => [cpu m / 100; memory m / 100;
                                  disk m / 100; network m / 100]%Q) recent)
  /\ forall i m, recent !! i = Some m ->
       row !! (4 * i + 0)%nat = Some (cpu m / 100)%Q
       /\ row !! (4 * i + 1)%nat = Some (memory m / 100)%Q
       /\ row !! (4 * i + 2)%nat = Some (disk m / 100)%Q
       /\ row !! (4 * i + 3)%nat = Some (network m / 100)%Q.
Proof.
  intros Hlen recent row. subst row.
  rewrite (preprocess_metrics_long _ Hlen). fold recent.
  assert (Hrecent : length recent = 10%nat)
    by (subst recent; rewrite length_drop; lia).
  split; [done|]. split; [|split; [|split]].
  - intros i _. subst recent. by rewrite lookup_drop.
  - rewrite (length_concat_four scaled_fields) by done. lia.
  - done.
  - intros i m Hi.
    by rewrite !(lookup_concat_four scaled_fields recent i _ m) by (done || lia).
Qed.

(** ** A program logic for [Py] *)

Section logic.
Context `{C : Collaborators}.

Lemma hoare_ret {A} (P : PyState -> Prop) (a : A) Q E :
  (forall s, P s -> Q a s) -> hoare P (ret a) Q E.
Proof. intros H s Hs. by apply H. Qed.

Lemma hoare_raise {A} (P : PyState -> Prop) (e : exn) (Q : A -> PyState -> Prop) E :
  (forall s, P s -> E e s) -> hoare P (raise e) Q E.
Proof. intros H s Hs. by apply H. Qed.

Lemma hoare_bind {A B} (P : PyState -> Prop) (m : Py A) (k : A -> Py B) Q R E :
  hoare P m Q E -> (forall a, hoare (Q a) (k a) R E) -> hoare P (m ≫= k) R E.
Proof.
  intros Hm Hk s Hs. specialize (Hm s Hs).
  unfold mbind, Py_bind, bind. destruct (m s) as [[a|e] s']; [|done].
  by apply Hk.
Qed.

Lemma hoare_try {A} (P : PyState -> Prop) (body : Py A) handler Q E E' :
  hoare P body Q E' -> (forall e, hoare (E' e) (handler e) Q E) ->
  hoare P (try_except body handler) Q E.
Proof.
  intros Hb Hh s Hs. specialize (Hb s Hs).
  unfold try_except. destruct (body s) as [[a|e] s']; [done|].
  by apply Hh.
Qed.

Lemma hoare_conseq {A} (P P' : PyState -> Prop) (m : Py A) (Q Q' : A -> PyState -> Prop)
    (E E' : exn -> PyState -> Prop) :
  hoare P' m Q' E' -> (forall s, P s -> P' s) ->
  (forall a s, Q' a s -> Q a s) -> (forall e s, E' e s -> E e s) ->
  hoare P m Q E.
Proof.
  intros Hm HP HQ HE s Hs. specialize (Hm s (HP s Hs)).
  destruct (m s) as [[a|e] s']; auto.
Qed.

Lemma hoare_emit (P : PyState -> Prop) (ev : Event) Q E :
  (forall s, P s -> Q tt (mkState (twins s) (world s) (log s ++ [ev]))) ->
  hoare P (emit ev) Q E.
Proof. intros H s Hs. by apply H. Qed.

Lemma hoare_call {A} (P : PyState -> Prop) (f : World -> Outcome A * World) Q E :
  (forall s w, P s ->
     (forall a, Q a (mkState (twins s) w (log s)))
     /\ (forall e, E e (mkState (twins s) w (log s)))) ->
  hoare P (call f) Q E.
Proof.
  intros H s Hs. unfold call. destruct (f (world s)) as [[a|e] w]; by apply H.
Qed.

Lemma hoare_lift_outcome {A} (P : PyState -> Prop) (o : Outcome A) Q E :
  (forall s, P s -> (forall a, Q a s) /\ (forall e, E e s)) ->
  hoare P (lift_outcome o) Q E.
Proof.
  intros H s Hs. unfold lift_outcome. destruct o; by apply H.
Qed.

Lemma hoare_get_twins (P : PyState -> Prop) Q E :
  (forall s, P s -> Q (twins s) s) -> hoare P get_twins Q E.
Proof. intros H s Hs. by apply H. Qed.

Lemma hoare_set_twin (P : PyState -> Prop) rid t Q E :
  (forall s, P s -> Q tt (mkState (<[rid := t]> (twins s)) (world s) (log s))) ->
  hoare P (set_twin rid t) Q E.
Proof. intros H s Hs. by apply H. Qed.

Lemma hoare_for_each {A} (I : PyState -> Prop) (xs : list A) (body : A -> Py unit) E :
  (forall x, hoare I (body x) (fun _ => I) E) ->
  hoare I (for_each xs body) (fun _ => I) E.
Proof.
  intros Hbody. induction xs as [|x xs IH]; simpl.
  - by apply hoare_ret.
  - eapply hoare_bind; [apply Hbody | intros ?; apply IH].
Qed.

(** *** Invariants over the registry and the log *)

Lemma maintains_ret {A} Jt Jl (a : A) : maintains Jt Jl (ret a).
Proof. by apply hoare_ret. Qed.

Lemma maintains_raise {A} Jt Jl e : maintains Jt Jl (raise (A := A) e).
Proof. by apply hoare_raise. Qed.

Lemma maintains_bind {A B} Jt Jl (m : Py A) (k : A -> Py B) :
  maintains Jt Jl m -> (forall a, maintains Jt Jl (k a)) -> maintains Jt Jl (m ≫= k).
Proof. intros Hm Hk. eapply hoare_bind; [apply Hm | apply Hk]. Qed.

Lemma maintains_try {A} Jt Jl (body : Py A) handler :
  maintains Jt Jl body -> (forall e, maintains Jt Jl (handler e)) ->
  maintains Jt Jl (try_except body handler).
Proof. intros Hb Hh. eapply hoare_try; [apply Hb | apply Hh]. Qed.

Lemma maintains_emit Jt Jl ev : Jl ev -> maintains Jt Jl (emit ev).
Proof.
  intros Hev. apply hoare_emit. intros s [Ht Hl]. split; [done|].
  apply Forall_app. split; [done | by constructor].
Qed.

Lemma maintains_call {A} Jt Jl (f : World -> Outcome A * World) :
  maintains Jt Jl (call f).
Proof. apply hoare_call. intros s w Hs. by split. Qed.

Lemma maintains_lift_outcome {A} Jt Jl (o : Outcome A) :
  maintains Jt Jl (lift_outcome o).
Proof. apply hoare_lift_outcome. intros s Hs. by split. Qed.

Lemma maintains_for_each {A} Jt Jl (xs : list A) (body : A -> Py unit) :
  (forall x, maintains Jt Jl (body x)) -> maintains Jt Jl (for_each xs body).
Proof. intros Hb. by apply hoare_for_each. Qed.

Lemma maintains_set_twin (Jt : gmap string DigitalTwinState -> Prop) Jl rid t :
  (forall tw, Jt tw -> Jt (<[rid := t]> tw)) -> maintains Jt Jl (set_twin rid t).
Proof.
  intros Hins. apply hoare_set_twin. intros s [Ht Hl]. split; [by apply Hins | done].
Qed.

Lemma safe_maintains {A} Jt Jl (m : Py A) : safe Jt Jl m -> maintains Jt Jl m.
Proof. intros Hm. eapply hoare_conseq; [apply Hm | auto | auto | done]. Qed.

Lemma safe_ret {A} Jt Jl (a : A) : safe Jt Jl (ret a).
Proof. by apply hoare_ret. Qed.

Lemma safe_emit Jt Jl ev : Jl ev -> safe Jt Jl (emit ev).
Proof.
  intros Hev. apply hoare_emit. intros s [Ht Hl]. split; [done|].
  apply Forall_app. split; [done | by constructor].
Qed.

Lemma safe_bind {A B} Jt Jl (m : Py A) (k : A -> Py B) :
  safe Jt Jl m -> (forall a, safe Jt Jl (k a)) -> safe Jt Jl (m ≫= k).
Proof. intros Hm Hk. eapply hoare_bind; [apply Hm | apply Hk]. Qed.

Lemma safe_try {A} Jt Jl (body : Py A) handler :
  maintains Jt Jl body -> (forall e, safe Jt Jl (handler e)) ->
  safe Jt Jl (try_except body handler).
Proof. intros Hb Hh. eapply hoare_try; [apply Hb | apply Hh]. Qed.

(** A safe program run from a good state: it returns, in a good state. *)
Lemma safe_run {A} Jt Jl (m : Py A) (s : PyState) :
  safe Jt Jl m -> keeps Jt Jl s ->
  exists a s', m s = (Return a, s') /\ keeps Jt Jl s'.
Proof.
  intros Hm Hs. specialize (Hm s Hs).
  destruct (m s) as [[a|e] s']; [eauto | done].
Qed.

End logic.

(** One step of a proof that a program maintains an invariant. *)
Ltac maintains_step :=
  first
    [ apply maintains_ret
    | apply maintains_raise
    | apply maintains_call
    | apply maintains_lift_outcome
    | apply maintains_emit
    | apply maintains_bind; [| intros ?]
    | apply maintains_try; [| intros ?]
    | apply maintains_for_each; intros ? ].

Ltac safe_step :=
  first
    [ apply safe_ret
    | apply safe_emit
    | apply safe_bind; [| intros ?]
    | apply safe_try; [| intros ?] ].

(** ** The service maintains invariants *)

Section invariants.
Context `{C : Collaborators}.
Variable Jt : gmap string DigitalTwinState -> Prop.
Variable Jl : Event -> Prop.

(** Every event but a call of the cost model is accepted by [Jl]; a call of
    the cost model is accepted on the features of the default resource type. *)
Hypothesis Jl_performance : forall row, Jl (EModelPredict Performance row).
Hypothesis Jl_anomaly : forall row, Jl (EModelPredict Anomaly row).
Hypothesis Jl_cost :
  forall metrics, Jl (EModelPredict Cost (cost_features metrics default_resource_type)).
Hypothesis Jl_redis : forall key ttl value, Jl (ERedisSetex key ttl value).
Hypothesis Jl_write_api : Jl EInfluxWriteApi.
Hypothesis Jl_write : forall p, Jl (EInfluxWrite p).
Hypothesis Jl_error : forall msg, Jl (ELogError msg).

Lemma maintains_index xs i : maintains Jt Jl (index xs i).
Proof. unfold index. destruct (xs !! i); maintains_step. Qed.

Lemma maintains_np_sub a b : maintains Jt Jl (np_sub a b).
Proof.
  unfold np_sub. destruct (length b =? length a)%nat; [maintains_step|].
  destruct b as [|y [|]]; maintains_step.
Qed.

Lemma safe_handler (prefix : string) (e : exn) :
  safe Jt Jl (logger_error (prefix +:+ str_exn e);;
              ret ({[ "error" := VStr (str_exn e) ]} : pydict)).
Proof. unfold logger_error. repeat safe_step. apply Jl_error. Qed.

Lemma safe_predict_performance metrics : safe Jt Jl (predict_performance metrics).
Proof.
  unfold predict_performance, model_predict, random_random, call_total.
  apply safe_try; [| intros e; apply safe_handler].
  repeat first [apply maintains_index | maintains_step]. apply Jl_performance.
Qed.

Lemma safe_detect_anomalies metrics : safe Jt Jl (detect_anomalies metrics).
Proof.
  unfold detect_anomalies, model_predict.
  apply safe_try; [| intros e; apply safe_handler].
  destruct (length metrics <? 1)%nat; [maintains_step|].
  destruct (last metrics); [|maintains_step].
  repeat first [apply maintains_np_sub | maintains_step]. apply Jl_anomaly.
Qed.

Lemma safe_predict_cost metrics :
  safe Jt Jl (predict_cost metrics default_resource_type).
Proof.
  unfold predict_cost, model_predict.
  apply safe_try; [| intros e; apply safe_handler].
  destruct (length metrics <? 1)%nat; [maintains_step|].
  repeat first [apply maintains_index | maintains_step]. apply Jl_cost.
Qed.

Lemma safe_store_twin_data twin metrics : safe Jt Jl (store_twin_data twin metrics).
Proof.
  unfold store_twin_data, write_points, logger_error.
  apply safe_try; [| intros e; safe_step; apply Jl_error].
  repeat maintains_step; auto.
Qed.

End invariants.

Section registry_invariants.
Context `{C : Collaborators}.
Variable Jt : gmap string DigitalTwinState -> Prop.
Variable Jl : Event -> Prop.

Hypothesis Jl_performance : forall row, Jl (EModelPredict Performance row).
Hypothesis Jl_anomaly : forall row, Jl (EModelPredict Anomaly row).
Hypothesis Jl_cost :
  forall metrics, Jl (EModelPredict Cost (cost_features metrics default_resource_type)).
Hypothesis Jl_redis : forall key ttl value, Jl (ERedisSetex key ttl value).
Hypothesis Jl_write_api : Jl EInfluxWriteApi.
Hypothesis Jl_write : forall p, Jl (EInfluxWrite p).
Hypothesis Jl_error : forall msg, Jl (ELogError msg).

(** The registry invariant survives the two writes the engine makes. *)
Hypothesis Jt_create : forall tw rid initial_state r,
  (0 <= r < 1)%Q -> Jt tw -> Jt (<[rid := created rid initial_state r]> tw).
Hypothesis Jt_update : forall tw rid t preds,
  tw !! rid = Some t -> Jt tw -> Jt (<[rid := updated t preds]> tw).

Lemma hoare_random_random :
  hoare (keeps Jt Jl) random_random
        (fun r s => (0 <= r < 1)%Q /\ keeps Jt Jl s) (fun _ => keeps Jt Jl).
Proof.
  intros s Hs. unfold random_random, call_total, call.
  pose proof (np_random_range (world s)) as Hr.
  destruct (np_random (world s)) as [r w]. by split.
Qed.

Lemma maintains_create_twin rid initial_state :
  maintains Jt Jl (create_twin rid initial_state).
Proof.
  unfold create_twin, redis_client_setex.
  eapply hoare_bind; [apply hoare_random_random|]. intros r.
  eapply hoare_bind with (Q := fun _ => keeps Jt Jl).
  - apply hoare_set_twin. intros s [Hr [Ht Hl]]. split; [|done].
    by apply Jt_create.
  - intros _. repeat maintains_step. apply Jl_redis.
Qed.

(** What [create_twin] does to the registry, whatever Redis answers. *)
Lemma create_twin_registry rid initial_state s :
  let r := fst (np_random (world s)) in
  (0 <= r < 1)%Q
  /\ exists o s',
      create_twin rid initial_state s = (o, s')
      /\ twins s' = <[rid := created rid initial_state r]> (twins s)
      /\ (forall t, o = Return t -> t = created rid initial_state r).
Proof.
  intros r. split; [apply np_random_range|]. subst r.
  unfold create_twin, random_random, call_total, call, redis_client_setex.
  unfold mbind, Py_bind, bind, set_twin, lift_outcome, emit, call, ret.
  destruct (np_random (world s)) as [r w]. cbn.
  destruct (json_dumps _) as [payload|e]; cbn.
  - destruct (redis_setex _ _ _ w) as [[[]|e] w'];
      eexists _, _; (split; [reflexivity|]); cbn;
      (split; [reflexivity|]); intros t Ht; by inversion Ht.
  - eexists _, _. split; [reflexivity|]. cbn.
    split; [reflexivity|]. intros t Ht. inversion Ht.
Qed.

(** [update_twin] on a resource that has a twin: it returns the updated
    twin, which is the one the registry then holds. *)
Lemma update_twin_existing rid metrics s t :
  keeps Jt Jl s -> twins s !! rid = Some t ->
  exists preds s',
    update_twin rid metrics s = (Return (updated t preds), s')
    /\ twins s' = <[rid := updated t preds]> (twins s)
    /\ keeps Jt Jl s'.
Proof.
  intros [Ht Hl] Htwin.
  set (Jt' := fun tw' : gmap string DigitalTwinState => tw' = twins s /\ Jt tw').
  assert (Hs : keeps Jt' Jl s) by done.
  destruct (safe_run Jt' Jl _ s
              (safe_predict_performance Jt' Jl Jl_performance Jl_error metrics) Hs)
    as (perf & s1 & E1 & Hs1).
  destruct (safe_run Jt' Jl _ s1
              (safe_detect_anomalies Jt' Jl Jl_anomaly Jl_error metrics) Hs1)
    as (anom & s2 & E2 & Hs2).
  destruct (safe_run Jt' Jl _ s2
              (safe_predict_cost Jt' Jl Jl_cost Jl_error metrics) Hs2)
    as (cost & s3 & E3 & [[Htw3 Ht3] Hl3]).
  set (preds := ({[ "performance" := VDict perf; "anomaly" := VDict anom;
                    "cost" := VDict cost ]} : pydict)).
  set (Jt'' := fun tw' : gmap string DigitalTwinState =>
                 tw' = <[rid := updated t preds]> (twins s) /\ Jt tw').
  set (s4 := mkState (<[rid := updated t preds]> (twins s3)) (world s3) (log s3)).
  assert (Hs4 : keeps Jt'' Jl s4).
  { split; [|done]. cbn. rewrite Htw3. split; [done|]. by apply Jt_update. }
  destruct (safe_run Jt'' Jl _ s4
              (safe_store_twin_data Jt'' Jl Jl_write_api Jl_write Jl_error
                                    (updated t preds) metrics) Hs4)
    as ([] & s5 & E5 & [[Htw5 Ht5] Hl5]).
  exists preds, s5. split; [|split; [done|]].
  2: { split; [exact Ht5 | exact Hl5]. }
  unfold update_twin, mbind, Py_bind, bind, get_twins.
  rewrite Htwin. cbn. rewrite Htwin, E1, E2, E3. cbn.
  fold preds. fold (updated t preds). fold s4. by rewrite E5.
Qed.

(** [update_twin] on a resource that has no twin creates one first, and
    fails where the creation fails. *)
Lemma update_twin_absent rid metrics s :
  twins s !! rid = None ->
  update_twin rid metrics s =
    match create_twin rid {[ "status" := VStr "active" ]} s with
    | (Return _, s0) => update_twin rid metrics s0
    | (Raise e, s0) => (Raise e, s0)
    end.
Proof.
  intros Hnone.
  destruct (create_twin_registry rid {[ "status" := VStr "active" ]} s)
    as (_ & o & s0 & Ecreate & Htw & _).
  set (r := fst (np_random (world s))) in Htw.
  rewrite Ecreate.
  unfold update_twin at 1. unfold mbind, Py_bind, bind, get_twins.
  rewrite Hnone, Ecreate. destruct o as [t0|e]; [|done].
  unfold update_twin, mbind, Py_bind, bind, get_twins, ret.
  cbn -[predict_performance detect_anomalies predict_cost store_twin_data].
  assert (Htwin0 : twins s0 !! rid = Some (created rid {[ "status" := VStr "active" ]} r))
    by (by rewrite Htw, lookup_insert_eq).
  by rewrite !Htwin0.
Qed.

Lemma maintains_update_twin rid metrics : maintains Jt Jl (update_twin rid metrics).
Proof.
  intros s Hs. destruct (twins s !! rid) as [t|] eqn:Htwin.
  - destruct (update_twin_existing rid metrics s t Hs Htwin) as (preds & s' & -> & _ & Hs').
    done.
  - rewrite (update_twin_absent _ _ _ Htwin).
    pose proof (maintains_create_twin rid {[ "status" := VStr "active" ]} s Hs) as Hcreate.
    destruct (create_twin_registry rid {[ "status" := VStr "active" ]} s)
      as (_ & o & s0 & Ecreate & Htw & _).
    set (r := fst (np_random (world s))) in Htw.
    rewrite Ecreate in Hcreate |- *. destruct o as [t0|e]; [|done].
    assert (Htwin0 : twins s0 !! rid = Some (created rid {[ "status" := VStr "active" ]} r))
      by (by rewrite Htw, lookup_insert_eq).
    destruct (update_twin_existing rid metrics s0 _ Hcreate Htwin0)
      as (preds & s' & -> & _ & Hs').
    done.
Qed.

Lemma maintains_predict_metrics request : maintains Jt Jl (predict_metrics request).
Proof.
  unfold predict_metrics, redis_client_setex, call_total, logger_error.
  apply maintains_try.
  - apply maintains_bind.
    + repeat case_match;
        [ apply safe_maintains, safe_predict_performance
        | apply safe_maintains, safe_detect_anomalies
        | apply safe_maintains, safe_predict_cost
        | maintains_step ]; auto.
    + intros result. repeat maintains_step. apply Jl_redis.
  - intros e. repeat maintains_step. apply Jl_error.
Qed.

(** Every state the service reaches satisfies the invariant. *)
Lemma reachable_keeps s : Jt ∅ -> reachable s -> keeps Jt Jl s.
Proof.
  intros Hempty Hreach.
  induction Hreach as [w | rid st s _ IH | rid ms s _ IH | rq s _ IH | w s _ IH].
  - split; [done | constructor].
  - pose proof (maintains_create_twin rid st s IH) as H.
    by destruct (create_twin rid st s) as [[?|?] ?].
  - pose proof (maintains_update_twin rid ms s IH) as H.
    by destruct (update_twin rid ms s) as [[?|?] ?].
  - pose proof (maintains_predict_metrics rq s IH) as H.
    by destruct (predict_metrics rq s) as [[?|?] ?].
  - exact IH.
Qed.

End registry_invariants.

(** ** The prediction functions *)

Section predictions.
Context `{C : Collaborators}.

Lemma last_Some_length {A} (xs : list A) (x : A) :
  last xs = Some x -> (length xs <? 1)%nat = false.
Proof. destruct xs; [done | intros _; by apply Nat.ltb_ge; simpl; lia]. Qed.

(** C4. On an empty window [detect_anomalies] returns the sentinel
    {anomaly_score: 0.0, is_anomaly: False}: it does not raise, it leaves the
    state (registry, collaborators and log) as it was, and so the anomaly
    model is not called. *)
Theorem detect_anomalies_empty_sentinel (s : PyState) :
  let sentinel : pydict :=
    {[ "anomaly_score" := VFloat 0.0; "is_anomaly" := VBool false ]} in
  detect_anomalies [] s = (Return sentinel, s)
  /\ sentinel !! "anomaly_score" = Some (VFloat 0.0)
  /\ sentinel !! "is_anomaly" = Some (VBool false)
  /\ dom sentinel = {[ "anomaly_score"; "is_anomaly" ]}
  /\ log (snd (detect_anomalies [] s)) = log s
  /\ forall row, EModelPredict Anomaly row ∈ log (snd (detect_anomalies [] s)) ->
       EModelPredict Anomaly row ∈ log s.
Proof.
  intros sentinel.
  assert (Hrun : detect_anomalies [] s = (Return sentinel, s)) by reflexivity.
  rewrite Hrun. subst sentinel. cbn [snd].
  split; [done|]. split; [done|]. split; [done|].
  split; [|split; done].
  by rewrite dom_insert_L, dom_singleton_L.
Qed.

(** C1 (what the code does). A request whose prediction type is none of
    "performance", "anomaly" and "cost" raises HTTPException(400) inside the
    [try] of [predict_metrics]; the [except Exception] clause of the same
    function catches it, logs it and raises HTTPException(500): the caller
    receives status 500, not 400. *)
Theorem predict_metrics_unknown_type_gives_500 (request : PredictionRequest) (s : PyState) :
  prediction_type request <> "performance" ->
  prediction_type request <> "anomaly" ->
  prediction_type request <> "cost" ->
  let rejected := HTTPException 400 "Invalid prediction type" in
  predict_metrics request s
    = (Raise (HTTPException 500 (str_exn rejected)),
       mkState (twins s) (world s)
               (log s ++ [ELogError ("Prediction error: " +:+ str_exn rejected)]))
  /\ http_status (fst (predict_metrics request s)) = 500%Z
  /\ http_status (fst (predict_metrics request s)) <> 400%Z.
Proof.
  intros Hp Ha Hc rejected.
  assert (Hrun : predict_metrics request s
    = (Raise (HTTPException 500 (str_exn rejected)),
       mkState (twins s) (world s)
               (log s ++ [ELogError ("Prediction error: " +:+ str_exn rejected)]))).
  { unfold predict_metrics.
    apply String.eqb_neq in Hp as ->. apply String.eqb_neq in Ha as ->.
    apply String.eqb_neq in Hc as ->. reflexivity. }
  rewrite Hrun. by repeat split.
Qed.

End predictions.

(** ** The twin registry *)

Section registry.
Context `{C : Collaborators}.

Lemma created_accuracy rid initial_state r :
  (0 <= r < 1)%Q -> (0.75 <= accuracy (created rid initial_state r) < 0.95)%Q.
Proof. intros Hr. unfold created. cbn [accuracy]. lra. Qed.

Lemma updated_accuracy t preds :
  (0.75 <= accuracy t <= 0.99)%Q ->
  (accuracy t <= accuracy (updated t preds) <= 0.99)%Q.
Proof.
  intros Ht. unfold updated. cbn [accuracy]. split.
  - apply py_min_ge; lra.
  - apply py_min_le_l.
Qed.

Lemma accuracy_bounded_empty : accuracy_bounded ∅.
Proof. intros rid t Hlook. by rewrite lookup_empty in Hlook. Qed.

Lemma accuracy_bounded_create tw rid initial_state r :
  (0 <= r < 1)%Q -> accuracy_bounded tw ->
  accuracy_bounded (<[rid := created rid initial_state r]> tw).
Proof.
  intros Hr Htw rid' t Hlook.
  destruct (decide (rid = rid')) as [<-|Hne].
  - rewrite lookup_insert_eq in Hlook. injection Hlook as <-.
    pose proof (created_accuracy rid initial_state r Hr). lra.
  - rewrite lookup_insert_ne in Hlook by done. by eapply Htw.
Qed.

Lemma accuracy_bounded_update tw rid t preds :
  tw !! rid = Some t -> accuracy_bounded tw ->
  accuracy_bounded (<[rid := updated t preds]> tw).
Proof.
  intros Ht Htw rid' t' Hlook.
  destruct (decide (rid = rid')) as [<-|Hne].
  - rewrite lookup_insert_eq in Hlook. injection Hlook as <-.
    pose proof (updated_accuracy t preds (Htw _ _ Ht)). specialize (Htw _ _ Ht). lra.
  - rewrite lookup_insert_ne in Hlook by done. by eapply Htw.
Qed.

Lemma keeps_accuracy_bounded s :
  accuracy_bounded (twins s) -> Forall any_event (log s) ->
  keeps accuracy_bounded any_event s.
Proof. by split. Qed.

Lemma Forall_any_event (evs : list Event) : Forall any_event evs.
Proof. by apply Forall_forall. Qed.

(** Every twin of a reachable state has an accuracy in [0.75, 0.99]. *)
Lemma reachable_accuracy_bounded s : reachable s -> accuracy_bounded (twins s).
Proof.
  intros Hreach.
  destruct (reachable_keeps accuracy_bounded any_event) with (s := s) as [Hbound _];
    try done.
  - apply accuracy_bounded_create.
  - apply accuracy_bounded_update.
Qed.

(** [update_twin] on a twin that exists, with no assumption on the log. *)
Lemma update_twin_returns rid metrics s t :
  twins s !! rid = Some t ->
  exists preds s',
    update_twin rid metrics s = (Return (updated t preds), s')
    /\ twins s' = <[rid := updated t preds]> (twins s).
Proof.
  intros Htwin.
  destruct (update_twin_existing (fun _ => True) any_event) with (rid := rid)
    (metrics := metrics) (s := s) (t := t) as (preds & s' & Hrun & Htw & _); try done.
  - split; [done | apply Forall_any_event].
  - by exists preds, s'.
Qed.

(** One call of [update_twin] from a state whose accuracies are bounded: the
    registry then holds an accuracy for the resource, at most 0.99, and where
    it held one before, the new one is the old one plus 0.001, capped at 0.99,
    and not below the old one. *)
Lemma update_twin_accuracy_step rid metrics s :
  accuracy_bounded (twins s) ->
  exists b,
    accuracy_of rid (snd (update_twin rid metrics s)) = Some b
    /\ (b <= 0.99)%Q
    /\ forall a, accuracy_of rid s = Some a ->
         b = py_min 0.99 (a + 0.001) /\ (a <= b)%Q.
Proof.
  intros Hbound. unfold accuracy_of.
  destruct (twins s !! rid) as [t|] eqn:Htwin.
  - destruct (update_twin_returns rid metrics s t Htwin) as (preds & s' & -> & Htw).
    cbn [snd]. rewrite Htw, lookup_insert_eq. cbn.
    pose proof (updated_accuracy t preds (Hbound _ _ Htwin)) as Hacc.
    eexists. split; [reflexivity|]. split; [apply Hacc|].
    intros a [= <-]. split; [reflexivity | apply Hacc].
  - rewrite (update_twin_absent rid metrics s Htwin).
    destruct (create_twin_registry rid {[ "status" := VStr "active" ]} s)
      as (Hr & o & s0 & -> & Htw & _).
    set (r := fst (np_random (world s))) in *.
    pose proof (created_accuracy rid {[ "status" := VStr "active" ]} r Hr) as Hacc0.
    assert (Htwin0 : twins s0 !! rid = Some (created rid {[ "status" := VStr "active" ]} r))
      by (by rewrite Htw, lookup_insert_eq).
    destruct o as [t0|e].
    + destruct (update_twin_returns rid metrics s0 _ Htwin0) as (preds & s' & -> & Htw').
      cbn [snd]. rewrite Htw', lookup_insert_eq. cbn.
      eexists. split; [reflexivity|]. split; [apply py_min_le_l | done].
    + cbn [snd]. rewrite Htwin0. cbn.
      eexists. split; [reflexivity|]. split; [lra | done].
Qed.

(** A sequence whose entries past the first are all present and whose
    neighbours are in order is in order throughout. *)
Lemma neighbours_ordered (accs : list (option Q)) :
  (forall i, (0 < i < length accs)%nat -> exists c, accs !! i = Some (Some c)) ->
  (forall i a b, accs !! i = Some (Some a) -> accs !! S i = Some (Some b) -> (a <= b)%Q) ->
  forall i j a b, (i <= j)%nat ->
    accs !! i = Some (Some a) -> accs !! j = Some (Some b) -> (a <= b)%Q.
Proof.
  intros Hpresent Hnext i j. induction j as [|j IH]; intros a b Hij Ha Hb.
  - assert (i = 0%nat) as -> by lia. rewrite Ha in Hb. injection Hb as ->. apply Qle_refl.
  - destruct (decide (i = S j)) as [->|Hne].
    { rewrite Ha in Hb. injection Hb as ->. apply Qle_refl. }
    assert (Hc : exists c, accs !! j = Some (Some c)).
    { destruct (decide (i = j)) as [->|Hne']; [by exists a|].
      apply Hpresent. apply lookup_lt_Some in Hb. lia. }
    destruct Hc as [c Hc].
    apply Qle_trans with c; [apply IH; [lia | done..] | by apply (Hnext j)].
Qed.

Lemma update_twin_keeps_bounded rid metrics s :
  accuracy_bounded (twins s) -> accuracy_bounded (twins (snd (update_twin rid metrics s))).
Proof.
  intros Hbound.
  pose proof (maintains_update_twin accuracy_bounded any_event) as Hm.
  specialize (Hm ltac:(done) ltac:(done) ltac:(done) ltac:(done) ltac:(done)
                 ltac:(done) ltac:(done) accuracy_bounded_create accuracy_bounded_update
                 rid metrics s (keeps_accuracy_bounded s Hbound (Forall_any_event _))).
  destruct (update_twin rid metrics s) as [[t|e] s']; apply Hm.
Qed.

Lemma update_many_accuracy rid batches s :
  accuracy_bounded (twins s) ->
  Forall (fun o => exists b, o = Some b /\ (b <= 0.99)%Q) (update_many rid batches s)
  /\ forall i a b,
       (accuracy_of rid s :: update_many rid batches s) !! i = Some (Some a) ->
       (accuracy_of rid s :: update_many rid batches s) !! S i = Some (Some b) ->
       b = py_min 0.99 (a + 0.001) /\ (a <= b)%Q.
Proof.
  revert s. induction batches as [|metrics rest IH]; intros s Hbound.
  - split; [constructor|]. intros i a b _ Hb. by destruct i.
  - cbn [update_many].
    destruct (update_twin_accuracy_step rid metrics s Hbound) as (b0 & Hb0 & Hle & Hstep).
    destruct (IH _ (update_twin_keeps_bounded rid metrics s Hbound)) as [Hall Hpairs].
    split; [constructor; eauto|].
    intros [|i] a b Ha Hb.
    + cbn in Ha, Hb. injection Ha as Ha. rewrite Hb0 in Hb. injection Hb as <-.
      by apply Hstep.
    + by apply (Hpairs i).
Qed.

(** C3. Repeated [update_twin] calls on one resource, from any state the
    service can reach: after every call the registry holds an accuracy for
    the resource and it is at most 0.99; from one call to the next the
    accuracy is the previous one plus the fixed step 0.001, capped at 0.99
    (so exactly 0.001 more wherever that does not pass 0.99), and it never
    decreases, so that the whole sequence is in non-decreasing order.  The
    sequence starts with the accuracy held before the first call, if any. *)
Theorem update_twin_accuracy_monotone
    (rid : string) (batches : list (list MetricData)) (s : PyState) :
  reachable s ->
  let accs := accuracy_of rid s :: update_many rid batches s in
  Forall (fun o => exists b, o = Some b /\ (b <= 0.99)%Q) (update_many rid batches s)
  /\ (forall i a b,
        accs !! i = Some (Some a) -> accs !! S i = Some (Some b) ->
        (a <= b)%Q
        /\ b = py_min 0.99 (a + 0.001)
        /\ ((a + 0.001 <= 0.99)%Q -> (b == a + 0.001)%Q)
        /\ (b <= 0.99)%Q)
  /\ (forall i j a b, (i <= j)%nat ->
        accs !! i = Some (Some a) -> accs !! j = Some (Some b) -> (a <= b)%Q).
Proof.
  intros Hreach accs. subst accs.
  destruct (update_many_accuracy rid batches s (reachable_accuracy_bounded s Hreach))
    as [Hall Hpairs].
  split; [exact Hall|]. split.
  - intros i a b Ha Hb. destruct (Hpairs i a b Ha Hb) as [-> Hle].
    split; [exact Hle|]. split; [reflexivity|]. split.
    + intros Hcap. by apply py_min_r.
    + apply py_min_le_l.
  - apply neighbours_ordered.
    + intros [|i] Hi; [lia|]. cbn in Hi |- *.
      destruct (lookup_lt_is_Some_2 (update_many rid batches s) i ltac:(lia)) as [o Ho].
      rewrite Forall_lookup in Hall. destruct (Hall i o Ho) as (c & -> & _).
      by exists c.
    + intros i a b Ha Hb. by destruct (Hpairs i a b Ha Hb).
Qed.

(** C8. [create_twin], for every resource id and initial state and whatever
    Redis answers, leaves in the registry under that id a twin with the given
    id and state, an accuracy in [0.75, 0.95) and no predictions; it is the
    twin returned when the call returns; the other entries are untouched; and
    the twin is the same whatever twin the id held before (the old record is
    replaced, nothing of it is kept). *)
Theorem create_twin_replaces (rid : string) (initial_state : pydict) (s : PyState) :
  exists twin,
    twins (snd (create_twin rid initial_state s)) !! rid = Some twin
    /\ resource_id twin = rid
    /\ state twin = initial_state
    /\ (0.75 <= accuracy twin < 0.95)%Q
    /\ predictions twin = None
    /\ (forall t, fst (create_twin rid initial_state s) = Return t -> t = twin)
    /\ (forall other, other <> rid ->
          twins (snd (create_twin rid initial_state s)) !! other = twins s !! other)
    /\ (forall old,
          twins (snd (create_twin rid initial_state
                        (mkState (<[rid := old]> (twins s)) (world s) (log s)))) !! rid
          = Some twin).
Proof.
  destruct (create_twin_registry rid initial_state s) as (Hr & o & s' & Hrun & Htw & Hret).
  exists (created rid initial_state (fst (np_random (world s)))).
  rewrite Hrun. cbn [fst snd]. rewrite Htw.
  split; [apply lookup_insert_eq|]. split; [done|]. split; [done|].
  split; [by apply created_accuracy|]. split; [done|]. split; [exact Hret|].
  split.
  - intros other Hne. by rewrite lookup_insert_ne.
  - intros old.
    destruct (create_twin_registry rid initial_state
                (mkState (<[rid := old]> (twins s)) (world s) (log s)))
      as (_ & o2 & s2 & -> & Htw2 & _).
    cbn [snd]. rewrite Htw2. cbn [world]. apply lookup_insert_eq.
Qed.

Lemma store_twin_data_returns twin metrics s :
  exists s', store_twin_data twin metrics s = (Return tt, s') /\ twins s' = twins s.
Proof.
  destruct (safe_run (fun tw => tw = twins s) any_event (store_twin_data twin metrics) s)
    as ([] & s' & Hrun & [Htw _]).
  - by apply safe_store_twin_data.
  - split; [done | apply Forall_any_event].
  - by exists s'.
Qed.

(** C9. The persistence hand-off never fails [update_twin].  For all
    behaviours of InfluxDB, reachable or not: [store_twin_data] returns and
    leaves the registry alone, and when the hand-off raises, the exception is
    caught and logged as an error, nothing else happening; [update_twin]
    returns the updated twin, which the registry then holds, both on a
    resource that has a twin and on one whose twin [create_twin] has just
    made. *)
Theorem update_twin_survives_persistence_failure
    (rid : string) (metrics : list MetricData) (s : PyState) :
  (forall t, twins s !! rid = Some t ->
     exists preds s',
       update_twin rid metrics s = (Return (updated t preds), s')
       /\ twins s' !! rid = Some (updated t preds)
       /\ accuracy (updated t preds) = py_min 0.99 (accuracy t + 0.001)
       /\ predictions (updated t preds) = Some preds)
  /\ (twins s !! rid = None ->
      forall t0 s0, create_twin rid {[ "status" := VStr "active" ]} s = (Return t0, s0) ->
      exists preds s',
        update_twin rid metrics s = (Return (updated t0 preds), s')
        /\ twins s' !! rid = Some (updated t0 preds))
  /\ forall twin s0,
       (exists s1, store_twin_data twin metrics s0 = (Return tt, s1)
                   /\ twins s1 = twins s0)
       /\ forall e s1, write_points twin metrics s0 = (Raise e, s1) ->
            store_twin_data twin metrics s0
            = (Return tt,
               mkState (twins s1) (world s1)
                       (log s1 ++ [ELogError ("Failed to store twin data: " +:+ str_exn e)])).
Proof.
  split; [|split].
  - intros t Htwin.
    destruct (update_twin_returns rid metrics s t Htwin) as (preds & s' & Hrun & Htw).
    exists preds, s'. split; [exact Hrun|]. split; [|done].
    rewrite Htw. apply lookup_insert_eq.
  - intros Hnone t0 s0 Hcreate.
    rewrite (update_twin_absent rid metrics s Hnone), Hcreate.
    destruct (create_twin_registry rid {[ "status" := VStr "active" ]} s)
      as (_ & o & s0' & Hrun & Htw & Hret).
    rewrite Hcreate in Hrun. injection Hrun as <- <-.
    assert (Htwin0 : twins s0 !! rid = Some t0).
    { rewrite Htw, lookup_insert_eq. f_equal. symmetry. by apply Hret. }
    destruct (update_twin_returns rid metrics s0 t0 Htwin0) as (preds & s' & Hrun & Htw').
    exists preds, s'. split; [exact Hrun|].
    rewrite Htw'. apply lookup_insert_eq.
  - intros twin s0. split; [apply store_twin_data_returns|].
    intros e s1 Hraise. unfold store_twin_data, try_except. by rewrite Hraise.
Qed.

Lemma cost_features_compute metrics :
  cost_call_is_compute (EModelPredict Cost (cost_features metrics default_resource_type)).
Proof. unfold cost_call_is_compute, cost_features. by eexists _, _, _, _, _. Qed.

(** C10. Every call of the cost model made through [update_twin] or
    [predict_metrics] uses the default resource type: in every state the
    service can reach, each logged call of the cost model has a row of width 8
    whose resource-type flags are (1.0, 0.0, 0.0); and the two entry points
    add no other kind of cost call to a log that has none. *)
Theorem cost_calls_use_compute (s : PyState) :
  reachable s ->
  (forall features, EModelPredict Cost features ∈ log s ->
     exists a b c d n, features = [a; b; c; d; n; 1.0; 0.0; 0.0]%Q)
  /\ (forall rid metrics,
        Forall cost_call_is_compute (log (snd (update_twin rid metrics s))))
  /\ (forall request,
        Forall cost_call_is_compute (log (snd (predict_metrics request s)))).
Proof.
  intros Hreach.
  assert (Hall : forall s', reachable s' -> Forall cost_call_is_compute (log s')).
  { intros s' Hs'.
    destruct (reachable_keeps (fun _ => True) cost_call_is_compute) with (s := s')
      as [_ Hlog]; try done.
    apply cost_features_compute. }
  split; [|split].
  - intros features Hin.
    pose proof (Hall s Hreach) as Hlog. rewrite Forall_forall in Hlog.
    exact (Hlog _ Hin).
  - intros rid metrics. apply Hall. by constructor.
  - intros request. apply Hall. by constructor.
Qed.

End registry.

(** ** The theorems at concrete inputs *)

Lemma preprocess_metrics_pads_raw_witness :
  length (preprocess_metrics Demo.window3) = 40%nat
  /\ take 28 (preprocess_metrics Demo.window3) = replicate 28 0.0%Q
  /\ drop 28 (preprocess_metrics Demo.window3)
     = [80; 60; 40; 20; 80; 60; 40; 20; 80; 60; 40; 20]%Q.
Proof.
  destruct (preprocess_metrics_pads_raw Demo.window3) as (Hlen & Hpad & Hraw & _).
  - simpl. lia.
  - split; [exact Hlen|]. split; [exact Hpad | exact Hraw].
Defined.

Lemma preprocess_metrics_scales_last_ten_witness :
  length (preprocess_metrics Demo.window11) = 40%nat
  /\ preprocess_metrics Demo.window11 !! 0%nat = Some (2 / 100)%Q
  /\ preprocess_metrics Demo.window11 !! 39%nat = Some (20 / 100)%Q.
Proof.
  destruct (preprocess_metrics_scales_last_ten Demo.window11) as (_ & _ & Hlen & _ & Hat).
  - simpl. lia.
  - split; [exact Hlen|]. split.
    + exact (proj1 (Hat 0%nat (Demo.sample 2) eq_refl)).
    + exact (proj2 (proj2 (proj2 (Hat 9%nat (Demo.sample 11) eq_refl)))).
Defined.

Lemma predict_metrics_unknown_type_gives_500_witness :
  http_status (fst (predict_metrics (C := Demo.collaborators) Demo.unknown_request
                                    (Demo.start true true))) = 500%Z.
Proof.
  apply (predict_metrics_unknown_type_gives_500 (C := Demo.collaborators)
           Demo.unknown_request (Demo.start true true));
    discriminate.
Defined.

Lemma update_twin_accuracy_monotone_witness :
  Forall (fun o => exists b, o = Some b /\ (b <= 0.99)%Q)
         (update_many (C := Demo.collaborators) "r1" [Demo.window3; []; Demo.window3]
                      (Demo.start false false)).
Proof.
  apply (update_twin_accuracy_monotone (C := Demo.collaborators) "r1"
           [Demo.window3; []; Demo.window3] (Demo.start false false)).
  apply (reach_start (C := Demo.collaborators)).
Defined.

Lemma update_twin_survives_persistence_failure_witness :
  exists preds s',
    update_twin (C := Demo.collaborators) "r1" Demo.window3 Demo.offline_with_twin
      = (Return (updated (mkTwin "r1" ∅ None 0.8) preds), s').
Proof.
  destruct (update_twin_survives_persistence_failure (C := Demo.collaborators)
              "r1" Demo.window3 Demo.offline_with_twin) as (Hexisting & _ & _).
  destruct (Hexisting (mkTwin "r1" ∅ None 0.8) eq_refl) as (preds & s' & Hrun & _).
  by exists preds, s'.
Defined.

Lemma cost_calls_use_compute_witness :
  Forall cost_call_is_compute
         (log (snd (update_twin (C := Demo.collaborators) "r1" Demo.window3
                                (Demo.start true true)))).
Proof.
  apply (cost_calls_use_compute (C := Demo.collaborators) (Demo.start true true)).
  apply (reach_start (C := Demo.collaborators)).
Defined.

(** * Further properties of the code *)

(** ** The feature preparer, on every window *)

(** X1. Whatever the length of the window, the performance row has width
    exactly 40. *)
Theorem preprocess_metrics_width_40 (metrics : list MetricData) :
  length (preprocess_metrics metrics) = 40%nat.
Proof.
  destruct (Nat.lt_ge_cases (length metrics) 10) as [Hshort|Hlong].
  - rewrite (preprocess_metrics_short _ Hshort).
    rewrite length_app, length_replicate, (length_concat_four raw_fields) by done. lia.
  - rewrite (preprocess_metrics_long _ Hlong).
    rewrite (length_concat_four scaled_fields), length_drop by done. lia.
Qed.

(** X2. Samples older than the last ten have no influence: a full window
    preceded by any history gives the row of the full window alone. *)
Theorem preprocess_metrics_ignores_history (older recent : list MetricData) :
  (10 <= length recent)%nat ->
  preprocess_metrics (older ++ recent) = preprocess_metrics recent.
Proof.
  intros Hlen.
  rewrite !preprocess_metrics_long by (rewrite ?length_app; lia).
  rewrite length_app, drop_app_ge by lia. do 3 f_equal. lia.
Qed.

Lemma percentage_scaled (x : Q) : (0 <= x <= 100)%Q -> (0 <= x / 100 <= 1)%Q.
Proof.
  intros [Hlo Hhi]. split.
  - apply Qle_shift_div_l; lra.
  - apply Qle_shift_div_r; lra.
Qed.

Lemma scaled_fields_unit_interval (m : MetricData) :
  percentages m -> Forall (fun x => 0 <= x <= 1)%Q (scaled_fields m).
Proof.
  intros (Hc & Hm & Hd & Hn). unfold scaled_fields.
  do 4 (constructor; [by apply percentage_scaled|]). constructor.
Qed.

(** X3. On a window of at least 10 samples whose readings are percentages,
    every entry of the row lies in [0, 1]. *)
Theorem preprocess_metrics_unit_interval (metrics : list MetricData) :
  (10 <= length metrics)%nat ->
  Forall percentages metrics ->
  Forall (fun x => 0 <= x <= 1)%Q (preprocess_metrics metrics).
Proof.
  intros Hlen Hall. rewrite (preprocess_metrics_long _ Hlen).
  apply Forall_concat, Forall_fmap.
  apply Forall_drop. eapply Forall_impl; [exact Hall|].
  intros m Hm. by apply scaled_fields_unit_interval.
Qed.

(** X4. The cost row has width 8 and carries the sample count; its three
    resource-type flags are 1.0 for the type named and 0.0 elsewhere, so at
    most one is set, and none is for a type other than compute, database and
    storage. *)
Theorem cost_features_one_hot (metrics : list MetricData) (resource_type : string) :
  exists a b c d f1 f2 f3,
    cost_features metrics resource_type
      = [a; b; c; d; inject_Z (Z.of_nat (length metrics)); f1; f2; f3]
    /\ (f1 = 1.0%Q <-> resource_type = "compute")
    /\ (f2 = 1.0%Q <-> resource_type = "database")
    /\ (f3 = 1.0%Q <-> resource_type = "storage")
    /\ (f1 = 0.0%Q \/ f1 = 1.0%Q) /\ (f2 = 0.0%Q \/ f2 = 1.0%Q) /\ (f3 = 0.0%Q \/ f3 = 1.0%Q)
    /\ ((f1 + f2 + f3 <= 1)%Q)
    /\ (~ known_resource_type resource_type -> f1 = 0.0%Q /\ f2 = 0.0%Q /\ f3 = 0.0%Q).
Proof.
  unfold cost_features. do 7 eexists. split; [reflexivity|].
  assert (Hflag : forall expected,
    (one_hot resource_type expected = 1.0%Q <-> resource_type = expected)
    /\ (one_hot resource_type expected = 0.0%Q \/ one_hot resource_type expected = 1.0%Q)).
  { intros expected. unfold one_hot.
    destruct (String.eqb_spec resource_type expected) as [->|Hne].
    - split; [done | by right].
    - split; [split; [discriminate | done] | by left]. }
  split; [apply Hflag|]. split; [apply Hflag|]. split; [apply Hflag|].
  split; [apply Hflag|]. split; [apply Hflag|]. split; [apply Hflag|].
  split.
  - unfold one_hot.
    destruct (String.eqb_spec resource_type "compute") as [->|?]; [done|].
    destruct (String.eqb_spec resource_type "database") as [->|?]; [done|].
    destruct (String.eqb_spec resource_type "storage") as [->|?]; done.
  - intros Hunknown. unfold one_hot, known_resource_type in *.
    destruct (String.eqb_spec resource_type "compute") as [->|?]; [tauto|].
    destruct (String.eqb_spec resource_type "database") as [->|?]; [tauto|].
    destruct (String.eqb_spec resource_type "storage") as [->|?]; [tauto|done].
Qed.

(** ** The prediction functions, on every model behaviour *)

Section predictors.
Context `{C : Collaborators}.

Lemma predict_cost_safe Jt metrics resource_type :
  safe Jt any_event (predict_cost metrics resource_type).
Proof.
  unfold predict_cost, model_predict.
  apply safe_try; [| intros e; by apply safe_handler].
  destruct (length metrics <? 1)%nat; [maintains_step|].
  repeat first [apply maintains_index | maintains_step]. done.
Qed.

(** X5. None of the three prediction functions ever raises, whatever the
    model, the generator or the input do: each returns a dict, and leaves the
    twin registry as it was. *)
Theorem prediction_functions_never_raise
    (metrics : list MetricData) (resource_type : string) (s : PyState) :
  (exists d s', predict_performance metrics s = (Return d, s') /\ twins s' = twins s)
  /\ (exists d s', detect_anomalies metrics s = (Return d, s') /\ twins s' = twins s)
  /\ (exists d s', predict_cost metrics resource_type s = (Return d, s')
                   /\ twins s' = twins s).
Proof.
  set (Jt := fun tw : gmap string DigitalTwinState => tw = twins s).
  assert (Hs : keeps Jt any_event s)
    by (split; [done | apply Forall_any_event]).
  split; [|split].
  - destruct (safe_run Jt any_event (predict_performance metrics) s)
      as (d & s' & Hrun & [Htw _]);
      [by apply safe_predict_performance | done | by exists d, s'].
  - destruct (safe_run Jt any_event (detect_anomalies metrics) s)
      as (d & s' & Hrun & [Htw _]);
      [by apply safe_detect_anomalies | done | by exists d, s'].
  - destruct (safe_run Jt any_event (predict_cost metrics resource_type) s)
      as (d & s' & Hrun & [Htw _]);
      [apply predict_cost_safe | done | by exists d, s'].
Qed.

(** X7. A scoring failure is reported as data: when the model call raises
    [e], each prediction function still returns, a dict whose only entry is
    "error" with the text of [e]; the log gains the model call and one error
    line, and nothing else changes. *)
Theorem scoring_failure_is_returned_as_error
    (metrics : list MetricData) (resource_type : string) (s : PyState) :
  (forall e w1,
     keras_predict Performance (preprocess_metrics metrics) (world s) = (Raise e, w1) ->
     predict_performance metrics s
     = (Return {[ "error" := VStr (str_exn e) ]},
        mkState (twins s) w1
                (log s ++ [EModelPredict Performance (preprocess_metrics metrics)]
                       ++ [ELogError ("Performance prediction error: " +:+ str_exn e)])))
  /\ (forall latest e w1,
        last metrics = Some latest ->
        keras_predict Anomaly (scaled_fields latest) (world s) = (Raise e, w1) ->
        detect_anomalies metrics s
        = (Return {[ "error" := VStr (str_exn e) ]},
           mkState (twins s) w1
                   (log s ++ [EModelPredict Anomaly (scaled_fields latest)]
                          ++ [ELogError ("Anomaly detection error: " +:+ str_exn e)])))
  /\ (forall e w1,
        metrics <> [] ->
        keras_predict Cost (cost_features metrics resource_type) (world s) = (Raise e, w1) ->
        predict_cost metrics resource_type s
        = (Return {[ "error" := VStr (str_exn e) ]},
           mkState (twins s) w1
                   (log s ++ [EModelPredict Cost (cost_features metrics resource_type)]
                          ++ [ELogError ("Cost prediction error: " +:+ str_exn e)]))).
Proof.
  split; [|split].
  - intros e w1 Hmodel.
    unfold predict_performance, try_except, model_predict, logger_error.
    unfold mbind, Py_bind, bind, emit, call, ret. cbn [twins world log].
    rewrite Hmodel. cbn [twins world log]. by rewrite <- app_assoc.
  - intros latest e w1 Hlast Hmodel.
    unfold detect_anomalies, try_except, model_predict, logger_error.
    rewrite (last_Some_length _ _ Hlast), Hlast.
    unfold mbind, Py_bind, bind, emit, call, ret. cbn [twins world log].
    rewrite Hmodel. cbn [twins world log]. by rewrite <- app_assoc.
  - intros e w1 Hne Hmodel.
    unfold predict_cost, try_except, model_predict, logger_error.
    assert (Hlen : (length metrics <? 1)%nat = false)
      by (destruct metrics; [done | by apply Nat.ltb_ge; simpl; lia]).
    rewrite Hlen.
    unfold mbind, Py_bind, bind, emit, call, ret. cbn [twins world log].
    rewrite Hmodel. cbn [twins world log]. by rewrite <- app_assoc.
Qed.

(** X8. [detect_anomalies] looks at the latest sample only: the samples
    before it change nothing, neither in the result nor in the state. *)
Theorem detect_anomalies_uses_latest_only
    (older : list MetricData) (latest : MetricData) (s : PyState) :
  detect_anomalies (older ++ [latest]) s = detect_anomalies [latest] s.
Proof.
  unfold detect_anomalies.
  assert (Hlen : (length (older ++ [latest]) <? 1)%nat = false)
    by (apply Nat.ltb_ge; rewrite length_app; simpl; lia).
  rewrite Hlen, last_snoc. reflexivity.
Qed.

End predictors.

Section prediction_bounds.
Context `{C : Collaborators}.

(** X10. On an empty window [predict_cost] returns {"predicted_cost": 0.0}
    for every resource type, without calling the cost model and without
    changing anything; the sentinel has none of the fields of a computed
    prediction. *)
Theorem predict_cost_empty_sentinel (resource_type : string) (s : PyState) :
  let sentinel : pydict := {[ "predicted_cost" := VFloat 0.0 ]} in
  predict_cost [] resource_type s = (Return sentinel, s)
  /\ dom sentinel = {[ "predicted_cost" ]}
  /\ sentinel !! "predicted_daily_cost" = None
  /\ sentinel !! "cost_trend" = None
  /\ log (snd (predict_cost [] resource_type s)) = log s.
Proof.
  intros sentinel.
  assert (Hrun : predict_cost [] resource_type s = (Return sentinel, s)) by reflexivity.
  rewrite Hrun. subst sentinel. cbn [snd].
  split; [done|]. split; [by rewrite dom_singleton_L|]. by repeat split.
Qed.

(** X11. The optimization potential is never negative: whenever the result
    of [predict_cost] carries one, on any window, for any resource type and
    model answer (a negative cost or a mean CPU above 100 included), it is a
    number at least 0. *)
Theorem optimization_potential_nonnegative
    (metrics : list MetricData) (resource_type : string) (s : PyState)
    (result : pydict) (potential : pyval) :
  fst (predict_cost metrics resource_type s) = Return result ->
  result !! "optimization_potential" = Some potential ->
  exists q, num_of potential = Some q /\ (0 <= q)%Q.
Proof.
  unfold predict_cost, try_except, model_predict, index, logger_error.
  unfold mbind, Py_bind, bind, emit, call, ret, raise.
  destruct (length metrics <? 1)%nat.
  { cbn. intros [= <-] Hpot. by rewrite lookup_singleton_ne in Hpot. }
  cbn [twins world log].
  destruct (keras_predict Cost _ (world s)) as [[output|e] w1];
    [| cbn; intros [= <-] Hpot; by rewrite lookup_singleton_ne in Hpot].
  destruct (output !! 0%nat) as [c|];
    [| cbn; intros [= <-] Hpot; by rewrite lookup_singleton_ne in Hpot].
  cbn. intros [= <-] Hpot.
  rewrite !lookup_insert_ne, lookup_singleton_eq in Hpot by done.
  injection Hpot as <-. unfold max_0.
  destruct (Qltb 0 _) eqn:E; cbn; eexists; (split; [reflexivity|]).
  - apply Qltb_lt in E. lra.
  - done.
Qed.

End prediction_bounds.

(** ** The twin registry, beyond accuracy *)

Section registry_more.
Context `{C : Collaborators}.

Lemma py_min_le_r (a b : Q) : (py_min a b <= b)%Q.
Proof.
  unfold py_min. destruct (Qltb b a) eqn:E; [lra|].
  apply Qltb_ge in E. done.
Qed.

(** The registry after [update_twin]: the entry of the resource is written,
    once or twice, and nothing else. *)
Lemma update_twin_registry rid metrics s :
  exists t', twins (snd (update_twin rid metrics s)) = <[rid := t']> (twins s).
Proof.
  destruct (twins s !! rid) as [t|] eqn:Htwin.
  - destruct (update_twin_returns rid metrics s t Htwin) as (preds & s' & -> & Htw).
    by exists (updated t preds).
  - rewrite (update_twin_absent rid metrics s Htwin).
    destruct (create_twin_registry rid {[ "status" := VStr "active" ]} s)
      as (_ & o & s0 & -> & Htw & _).
    destruct o as [t0|e]; [|by eexists].
    assert (Htwin0 : twins s0 !! rid
                     = Some (created rid {[ "status" := VStr "active" ]}
                                     (fst (np_random (world s)))))
      by (by rewrite Htw, lookup_insert_eq).
    destruct (update_twin_returns rid metrics s0 _ Htwin0) as (preds & s' & -> & Htw').
    eexists. cbn [snd]. by rewrite Htw', Htw, insert_insert_eq.
Qed.

(** X12. [update_twin] touches the twin of its own resource only: the
    twin held for any other resource id is the same before and after,
    however the call ends. *)
Theorem update_twin_leaves_other_twins
    (rid other : string) (metrics : list MetricData) (s : PyState) :
  other <> rid ->
  twins (snd (update_twin rid metrics s)) !! other = twins s !! other.
Proof.
  intros Hne. destruct (update_twin_registry rid metrics s) as [t' ->].
  by rewrite lookup_insert_ne.
Qed.

Lemma predict_metrics_registry request s :
  twins (snd (predict_metrics request s)) = twins s.
Proof.
  pose proof (maintains_predict_metrics (fun tw => tw = twins s) any_event) as Hm.
  specialize (Hm ltac:(done) ltac:(done) ltac:(done) ltac:(done) ltac:(done) request s).
  destruct (predict_metrics request s) as [[r|e] s']; cbn [snd];
    apply Hm; (split; [done | apply Forall_any_event]).
Qed.

(** X13. No call ever removes a twin.  [create_twin] and [update_twin]
    leave registered exactly the ids registered before plus their own, and
    [predict_metrics] leaves the registry as it is. *)
Theorem twins_are_never_removed
    (rid : string) (initial_state : pydict) (metrics : list MetricData)
    (request : PredictionRequest) (s : PyState) :
  dom (twins (snd (create_twin rid initial_state s))) = {[ rid ]} ∪ dom (twins s)
  /\ dom (twins (snd (update_twin rid metrics s))) = {[ rid ]} ∪ dom (twins s)
  /\ twins (snd (predict_metrics request s)) = twins s.
Proof.
  split; [|split].
  - destruct (create_twin_registry rid initial_state s) as (_ & o & s' & Hrun & Htw & _).
    rewrite Hrun. cbn [snd]. rewrite Htw. apply dom_insert_L.
  - destruct (update_twin_registry rid metrics s) as [t' ->]. apply dom_insert_L.
  - apply predict_metrics_registry.
Qed.

(** X14. Auto-provisioning.  [update_twin] on a resource without a twin,
    when the creation succeeds, returns a twin of that resource whose state is
    {"status": "active"}, whose predictions are set and whose accuracy, the
    seed plus one step, lies in [0.751, 0.951). *)
Theorem update_twin_provisions_missing_twin
    (rid : string) (metrics : list MetricData) (s : PyState)
    (t0 : DigitalTwinState) (s0 : PyState) :
  twins s !! rid = None ->
  create_twin rid {[ "status" := VStr "active" ]} s = (Return t0, s0) ->
  exists t' s',
    update_twin rid metrics s = (Return t', s')
    /\ twins s' !! rid = Some t'
    /\ resource_id t' = rid
    /\ state t' = {[ "status" := VStr "active" ]}
    /\ is_Some (predictions t')
    /\ (accuracy t' == accuracy t0 + 0.001)%Q
    /\ (0.751 <= accuracy t' < 0.951)%Q.
Proof.
  intros Hnone Hcreate.
  rewrite (update_twin_absent rid metrics s Hnone), Hcreate.
  destruct (create_twin_registry rid {[ "status" := VStr "active" ]} s)
    as (Hr & o & s0' & Hrun & Htw & Hret).
  rewrite Hcreate in Hrun. injection Hrun as <- <-.
  rewrite (Hret t0 eq_refl) in *.
  set (r := fst (np_random (world s))) in *.
  assert (Htwin0 : twins s0 !! rid = Some (created rid {[ "status" := VStr "active" ]} r))
    by (by rewrite Htw, lookup_insert_eq).
  destruct (update_twin_returns rid metrics s0 _ Htwin0) as (preds & s' & Hrun & Htw').
  exists (updated (created rid {[ "status" := VStr "active" ]} r) preds), s'.
  split; [exact Hrun|]. split; [by rewrite Htw', lookup_insert_eq|].
  split; [done|]. split; [done|]. split; [by eexists|].
  unfold updated, created. cbn [accuracy].
  assert (Hcap : (0.75 + r * 0.2 + 0.001 <= 0.99)%Q) by lra.
  rewrite (py_min_r _ _ Hcap). split; [reflexivity | lra].
Qed.

(** X15. A failed auto-provisioning is not swallowed.  When [update_twin]
    finds no twin and [create_twin] raises (the Redis write or the
    serialisation failed), [update_twin] raises the same exception at once,
    with no prediction made; the twin is registered all the same, so the next
    [update_twin] on the resource returns. *)
Theorem update_twin_propagates_failed_provisioning
    (rid : string) (metrics : list MetricData) (s : PyState) (e : exn) (s0 : PyState) :
  twins s !! rid = None ->
  create_twin rid {[ "status" := VStr "active" ]} s = (Raise e, s0) ->
  update_twin rid metrics s = (Raise e, s0)
  /\ (exists t0, twins s0 !! rid = Some t0
                 /\ predictions t0 = None
                 /\ forall metrics', exists preds s',
                      update_twin rid metrics' s0 = (Return (updated t0 preds), s')).
Proof.
  intros Hnone Hcreate.
  rewrite (update_twin_absent rid metrics s Hnone), Hcreate.
  split; [done|].
  destruct (create_twin_registry rid {[ "status" := VStr "active" ]} s)
    as (_ & o & s0' & Hrun & Htw & _).
  rewrite Hcreate in Hrun. injection Hrun as <- <-.
  eexists. split; [by rewrite Htw, lookup_insert_eq|]. split; [done|].
  intros metrics'.
  destruct (update_twin_returns rid metrics' s0 _ ltac:(by rewrite Htw, lookup_insert_eq))
    as (preds & s' & Hrun & _).
  by exists preds, s'.
Qed.

End registry_more.

(** ** How [update_twin] is put together *)

Section composition.
Context `{C : Collaborators}.

Lemma safe_keeps_registry {A} (m : Py A) (s : PyState) :
  safe (fun tw => tw = twins s) any_event m ->
  exists a s', m s = (Return a, s') /\ twins s' = twins s.
Proof.
  intros Hm.
  destruct (safe_run _ _ m s Hm) as (a & s' & Hrun & [Htw _]).
  - split; [done | apply Forall_any_event].
  - by exists a, s'.
Qed.

(** X16. [update_twin] on a resource that has a twin runs the three
    prediction functions in the order performance, anomaly, cost, each from
    the state the previous one left and the cost one with the default resource
    type; the predictions of the twin become exactly these three results under
    their three keys (whatever they were before), its id and state stay, and
    the hand-off is given the updated twin, after the registry holds it. *)
Theorem update_twin_runs_three_predictions
    (rid : string) (metrics : list MetricData) (s : PyState) (t : DigitalTwinState) :
  twins s !! rid = Some t ->
  exists perf anom cost s1 s2 s3 s',
    predict_performance metrics s = (Return perf, s1)
    /\ detect_anomalies metrics s1 = (Return anom, s2)
    /\ predict_cost metrics "compute" s2 = (Return cost, s3)
    /\ let preds : pydict :=
         {[ "performance" := VDict perf; "anomaly" := VDict anom; "cost" := VDict cost ]} in
       let t' := updated t preds in
       update_twin rid metrics s = (Return t', s')
       /\ store_twin_data t' metrics
            (mkState (<[rid := t']> (twins s)) (world s3) (log s3)) = (Return tt, s')
       /\ dom preds = {[ "performance"; "anomaly"; "cost" ]}
       /\ resource_id t' = resource_id t
       /\ state t' = state t.
Proof.
  intros Htwin.
  destruct (safe_keeps_registry (predict_performance metrics) s)
    as (perf & s1 & E1 & Htw1); [by apply safe_predict_performance|].
  destruct (safe_keeps_registry (detect_anomalies metrics) s1)
    as (anom & s2 & E2 & Htw2); [by apply safe_detect_anomalies|].
  destruct (safe_keeps_registry (predict_cost metrics default_resource_type) s2)
    as (cost & s3 & E3 & Htw3); [apply predict_cost_safe|].
  set (preds := ({[ "performance" := VDict perf; "anomaly" := VDict anom;
                    "cost" := VDict cost ]} : pydict)).
  set (s4 := mkState (<[rid := updated t preds]> (twins s)) (world s3) (log s3)).
  destruct (store_twin_data_returns (updated t preds) metrics s4) as (s' & E5 & _).
  exists perf, anom, cost, s1, s2, s3, s'.
  split; [exact E1|]. split; [exact E2|]. split; [exact E3|].
  cbv zeta. fold preds. fold s4.
  split; [|split; [exact E5|]; split; [|done]].
  - unfold update_twin, mbind, Py_bind, bind, get_twins.
    rewrite Htwin. cbn. rewrite Htwin, E1, E2, E3. cbn.
    rewrite Htw3, Htw2, Htw1. fold preds. fold (updated t preds). fold s4.
    by rewrite E5.
  - subst preds. rewrite !dom_insert_L, dom_singleton_L. set_solver.
Qed.

(** X17. An empty batch is still an update.  On a resource that has a twin,
    [update_twin] with no samples returns the twin with one more accuracy
    step, with the two sentinels as anomaly and cost predictions; the anomaly
    and cost models are not called, the hand-off opens the write API and
    writes no point. *)
Theorem update_twin_empty_batch (rid : string) (s : PyState) (t : DigitalTwinState) :
  twins s !! rid = Some t ->
  exists perf s1 s',
    predict_performance [] s = (Return perf, s1)
    /\ update_twin rid [] s
       = (Return (updated t
                    {[ "performance" := VDict perf;
                       "anomaly" := VDict {[ "anomaly_score" := VFloat 0.0;
                                             "is_anomaly" := VBool false ]};
                       "cost" := VDict {[ "predicted_cost" := VFloat 0.0 ]} ]}), s')
    /\ (log s' = log s1 ++ [EInfluxWriteApi]
        \/ exists msg, log s' = log s1 ++ [EInfluxWriteApi; ELogError msg]).
Proof.
  intros Htwin.
  destruct (safe_keeps_registry (predict_performance []) s)
    as (perf & s1 & E1 & Htw1); [by apply safe_predict_performance|].
  unfold update_twin, mbind, Py_bind, bind, get_twins.
  rewrite Htwin. cbn -[predict_performance]. rewrite Htwin, E1.
  unfold store_twin_data, try_except, write_points, logger_error.
  unfold mbind, Py_bind, bind, emit, call, ret.
  cbn -[predict_performance].
  destruct (influx_write_api (world s1)) as [[[]|e] w1]; cbn;
    eexists _, _, _; (split; [reflexivity|]); (split; [reflexivity|]); cbn.
  - left. reflexivity.
  - right. eexists. by rewrite <- app_assoc.
Qed.

Lemma run_emit_call {A B} (ev : Event) (f : World -> Outcome A * World)
    (k : A -> Py B) (s : PyState) :
  (emit ev;; (call f ≫= k)) s
  = match f (world s) with
    | (Return a, w) => k a (mkState (twins s) w (log s ++ [ev]))
    | (Raise e, w) => (Raise e, mkState (twins s) w (log s ++ [ev]))
    end.
Proof.
  unfold mbind, Py_bind, bind, emit, call. cbn [twins world log].
  by destruct (f (world s)) as [[a|e] w].
Qed.

(** The log of the writing loop: the writes attempted are those of the
    first [k] samples, in order; all of them when the loop returns. *)
Lemma write_loop_log (twin : DigitalTwinState) (metrics : list MetricData) (s : PyState) :
  let body := fun metric =>
    emit (EInfluxWrite (point_of twin metric));; call (influx_write (point_of twin metric)) in
  exists k,
    (k <= length metrics)%nat
    /\ log (snd (for_each metrics body s))
       = log s ++ map (fun metric => EInfluxWrite (point_of twin metric)) (take k metrics)
    /\ (forall u, fst (for_each metrics body s) = Return u -> k = length metrics).
Proof.
  intros body. revert s. induction metrics as [|metric rest IH]; intros s.
  - exists 0%nat. cbn. by rewrite app_nil_r.
  - cbn [for_each].
    change ((body metric ≫= (fun _ => for_each rest body)) s)
      with (match body metric s with
            | (Return _, s') => for_each rest body s'
            | (Raise e, s') => (Raise e, s')
            end).
    assert (Hbody : body metric s
                    = let '(o, w) := influx_write (point_of twin metric) (world s) in
                      (o, mkState (twins s) w
                                  (log s ++ [EInfluxWrite (point_of twin metric)])))
      by reflexivity.
    rewrite Hbody.
    destruct (influx_write (point_of twin metric) (world s)) as [[[]|e] w1].
    + set (s1 := mkState (twins s) w1 (log s ++ [EInfluxWrite (point_of twin metric)])).
      destruct (IH s1) as (k & Hk & Hlog & Hall).
      exists (S k). split; [simpl; lia|]. split.
      * rewrite Hlog. subst s1. cbn [log take map]. by rewrite <- app_assoc.
      * intros u Hu. simpl. f_equal. by apply (Hall u).
    + exists 1%nat. split; [simpl; lia|]. split; [reflexivity | done].
Qed.

(** X18. The hand-off writes in order and stops at the first failure.  The
    InfluxDB events [store_twin_data] adds to the log are the opening of the
    write API and the writes of the first k samples, in the order of the
    batch, each carrying the twin's accuracy; then either that is all and
    k is the whole batch, or one error line follows and no further write is
    attempted. *)
Theorem store_twin_data_writes_in_order
    (twin : DigitalTwinState) (metrics : list MetricData) (s : PyState) :
  exists k,
    (k <= length metrics)%nat
    /\ (log (snd (store_twin_data twin metrics s)) = log s ++ points_written twin metrics k
        /\ k = length metrics
        \/ exists msg,
             log (snd (store_twin_data twin metrics s))
             = log s ++ points_written twin metrics k ++ [ELogError msg]).
Proof.
  pose proof (write_loop_log twin metrics) as Hloop. cbv zeta in Hloop.
  unfold store_twin_data, try_except, write_points, logger_error, points_written.
  rewrite run_emit_call.
  destruct (influx_write_api (world s)) as [[[]|e] w1].
  - set (s1 := mkState (twins s) w1 (log s ++ [EInfluxWriteApi])).
    destruct (Hloop s1) as (k & Hk & Hlog & Hall).
    exists k. split; [exact Hk|].
    destruct (for_each metrics _ s1) as [[[]|e] s2]; cbn [fst snd] in *.
    + left. split; [|by apply (Hall tt)].
      rewrite Hlog. subst s1. cbn [log]. by rewrite <- app_assoc.
    + right. eexists. cbn [emit snd log]. rewrite Hlog. subst s1. cbn [log].
      by rewrite <- !app_assoc.
  - exists 0%nat. split; [lia|]. right. eexists. cbn. by rewrite <- app_assoc.
Qed.

End composition.

(** ** The [/predict] endpoint, on every request *)

Section predict_endpoint.
Context `{C : Collaborators}.

(** X19. [predict_metrics] answers 200 or 500 and nothing else: whatever
    the request and the collaborators, it returns a response or raises
    HTTPException(500); no request is ever answered with a 4xx status. *)
Theorem predict_metrics_answers_200_or_500 (request : PredictionRequest) (s : PyState) :
  ((exists response, fst (predict_metrics request s) = Return response)
   \/ (exists detail, fst (predict_metrics request s) = Raise (HTTPException 500 detail)))
  /\ (http_status (fst (predict_metrics request s)) = 200%Z
      \/ http_status (fst (predict_metrics request s)) = 500%Z).
Proof.
  unfold predict_metrics, try_except, logger_error.
  match goal with
  | |- context [match ?body s with _ => _ end] => destruct (body s) as [[response|e] s1]
  end.
  - split; [left; by eexists | by left].
  - split; [right; by eexists | by right].
Qed.

(** What [predict_metrics] does once the prediction function has returned. *)
Lemma predict_metrics_after_prediction request run s result s1 :
  predictor_for request = Some run ->
  run s = (Return result, s1) ->
  predict_metrics request s =
    match json_dumps (VDict result) with
    | Raise e =>
        (Raise (HTTPException 500 (str_exn e)),
         mkState (twins s1) (world s1)
                 (log s1 ++ [ELogError ("Prediction error: " +:+ str_exn e)]))
    | Return payload =>
        match redis_setex (prediction_key request) 300 payload (world s1) with
        | (Raise e, w2) =>
            (Raise (HTTPException 500 (str_exn e)),
             mkState (twins s1) w2
                     (log s1 ++ [ERedisSetex (prediction_key request) 300 payload]
                            ++ [ELogError ("Prediction error: " +:+ str_exn e)]))
        | (Return _, w2) =>
            (Return {[ "resource_id" := VStr (req_resource_id request);
                       "prediction_type" := VStr (prediction_type request);
                       "result" := VDict result;
                       "timestamp" := VStr (fst (datetime_now_isoformat w2)) ]},
             mkState (twins s1) (snd (datetime_now_isoformat w2))
                     (log s1 ++ [ERedisSetex (prediction_key request) 300 payload]))
        end
    end.
Proof.
  intros Hfor Hrun.
  assert (Hdispatch :
    (if String.eqb (prediction_type request) "performance" then
       predict_performance (req_metrics request)
     else if String.eqb (prediction_type request) "anomaly" then
       detect_anomalies (req_metrics request)
     else if String.eqb (prediction_type request) "cost" then
       predict_cost (req_metrics request) default_resource_type
     else raise (HTTPException 400 "Invalid prediction type")) = run).
  { unfold predictor_for in Hfor.
    repeat (destruct (String.eqb _ _); [by injection Hfor|]). done. }
  unfold predict_metrics. rewrite Hdispatch.
  unfold try_except, redis_client_setex, call_total, logger_error, lift_outcome.
  unfold mbind, Py_bind, bind. rewrite Hrun.
  fold (prediction_key request).
  destruct (json_dumps (VDict result)) as [payload|e]; [|reflexivity].
  unfold emit, call, ret, raise. cbn [twins world log].
  destruct (redis_setex (prediction_key request) 300 payload (world s1)) as [[[]|e] w2].
  - cbn [twins world log]. by destruct (datetime_now_isoformat w2).
  - cbn [twins world log]. by rewrite <- app_assoc.
Qed.

(** X20. A request of a known type, when the serialisation and the cache
    write succeed: [predict_metrics] returns a response that echoes the
    resource id and the type and carries the dict of the prediction function
    under "result"; that dict has been written to Redis once, under
    "prediction:<resource_id>:<type>" with a lifetime of 300 seconds; the
    registry is as the prediction function left it. *)
Theorem predict_metrics_caches_and_answers
    (request : PredictionRequest) (run : Py pydict) (s s1 : PyState)
    (result : pydict) (payload : string) (w2 : World) :
  predictor_for request = Some run ->
  run s = (Return result, s1) ->
  json_dumps (VDict result) = Return payload ->
  redis_setex (prediction_key request) 300 payload (world s1) = (Return tt, w2) ->
  exists response s',
    predict_metrics request s = (Return response, s')
    /\ response !! "resource_id" = Some (VStr (req_resource_id request))
    /\ response !! "prediction_type" = Some (VStr (prediction_type request))
    /\ response !! "result" = Some (VDict result)
    /\ is_Some (response !! "timestamp")
    /\ log s' = log s1 ++ [ERedisSetex (prediction_key request) 300 payload]
    /\ twins s' = twins s1.
Proof.
  intros Hfor Hrun Hjson Hredis.
  rewrite (predict_metrics_after_prediction request run s result s1 Hfor Hrun).
  rewrite Hjson, Hredis. eexists _, _. split; [reflexivity|].
  cbn [log twins]. by repeat split.
Qed.

(** X21. A prediction that cannot be cached is lost.  For a request of a
    known type, when the serialisation of the result or the Redis write raises
    [e], [predict_metrics] raises HTTPException(500) with the text of [e],
    although the prediction function had returned its result. *)
Theorem predict_metrics_fails_with_the_cache
    (request : PredictionRequest) (run : Py pydict) (s s1 : PyState)
    (result : pydict) (e : exn) :
  predictor_for request = Some run ->
  run s = (Return result, s1) ->
  (json_dumps (VDict result) = Raise e
   \/ exists payload w2,
        json_dumps (VDict result) = Return payload
        /\ redis_setex (prediction_key request) 300 payload (world s1) = (Raise e, w2)) ->
  fst (predict_metrics request s) = Raise (HTTPException 500 (str_exn e))
  /\ http_status (fst (predict_metrics request s)) = 500%Z
  /\ ELogError ("Prediction error: " +:+ str_exn e) ∈ log (snd (predict_metrics request s)).
Proof.
  intros Hfor Hrun Hfail.
  rewrite (predict_metrics_after_prediction request run s result s1 Hfor Hrun).
  destruct Hfail as [Hjson | (payload & w2 & Hjson & Hredis)].
  - rewrite Hjson. cbn. repeat split. set_solver.
  - rewrite Hjson, Hredis. cbn. repeat split. set_solver.
Qed.

End predict_endpoint.

(** ** The twin endpoints and the retraining task *)

Section twin_endpoints.
Context `{B : Backend}.

Lemma update_twin_returned_is_registered rid metrics s t' s' :
  update_twin rid metrics s = (Return t', s') -> twins s' !! rid = Some t'.
Proof.
  intros Hrun. destruct (twins s !! rid) as [t|] eqn:Htwin.
  - destruct (update_twin_returns rid metrics s t Htwin) as (preds & s1 & Hrun1 & Htw).
    rewrite Hrun1 in Hrun. injection Hrun as <- <-. by rewrite Htw, lookup_insert_eq.
  - rewrite (update_twin_absent rid metrics s Htwin) in Hrun.
    destruct (create_twin_registry rid {[ "status" := VStr "active" ]} s)
      as (_ & o & s0 & Hcreate & Htw & _).
    rewrite Hcreate in Hrun. destruct o as [t0|e]; [|done].
    destruct (update_twin_returns rid metrics s0 _ ltac:(by rewrite Htw, lookup_insert_eq))
      as (preds & s1 & Hrun1 & Htw1).
    rewrite Hrun1 in Hrun. injection Hrun as <- <-. by rewrite Htw1, lookup_insert_eq.
Qed.

Lemma get_digital_twin_run rid s :
  get_digital_twin rid s =
    match redis_get ("twin:" +:+ rid) (world s) with
    | (Raise e, w1) => (Raise e, mkState (twins s) w1 (log s))
    | (Return cached, w1) =>
        if truthy cached then
          match cached with
          | Some text => (json_loads text, mkState (twins s) w1 (log s))
          | None => (Raise (Exception "TypeError"), mkState (twins s) w1 (log s))
          end
        else
          match twins s !! rid with
          | Some twin => (Return (twin_dict twin), mkState (twins s) w1 (log s))
          | None => (Raise (HTTPException 404 "Digital twin not found"),
                     mkState (twins s) w1 (log s))
          end
    end.
Proof.
  unfold get_digital_twin, mbind, Py_bind, bind, call, get_twins, lift_outcome.
  destruct (redis_get ("twin:" +:+ rid) (world s)) as [[cached|e] w1]; [|done].
  destruct (truthy cached); [by destruct cached|].
  cbn [twins]. by destruct (twins s !! rid).
Qed.

(** X22. [get_digital_twin] answers from the cache first.  When Redis holds
    a non-empty text under "twin:<resource_id>", the answer is that text
    decoded, whether the registry holds a twin for the resource or not, and
    whatever that twin is. *)
Theorem get_digital_twin_prefers_cache
    (rid text : string) (s : PyState) (w1 : World) :
  redis_get ("twin:" +:+ rid) (world s) = (Return (Some text), w1) ->
  text <> "" ->
  get_digital_twin rid s = (json_loads text, mkState (twins s) w1 (log s))
  /\ forall registry,
       fst (get_digital_twin rid (mkState registry (world s) (log s))) = json_loads text.
Proof.
  intros Hget Htext.
  assert (Htruthy : truthy (Some text) = true).
  { unfold truthy. by apply String.eqb_neq in Htext as ->. }
  split.
  - by rewrite get_digital_twin_run, Hget, Htruthy.
  - intros registry. rewrite get_digital_twin_run. cbn [world].
    by rewrite Hget, Htruthy.
Qed.

(** X23. On a cache miss (Redis answers nothing, or an empty text)
    [get_digital_twin] answers from the registry: the dict of the twin
    registered for the resource, and HTTPException(404) when there is none.
    The 404 reaches the caller as status 404. *)
Theorem get_digital_twin_cache_miss
    (rid : string) (cached : option string) (s : PyState) (w1 : World) :
  redis_get ("twin:" +:+ rid) (world s) = (Return cached, w1) ->
  cached = None \/ cached = Some "" ->
  (forall twin, twins s !! rid = Some twin ->
     get_digital_twin rid s = (Return (twin_dict twin), mkState (twins s) w1 (log s)))
  /\ (twins s !! rid = None ->
      get_digital_twin rid s
      = (Raise (HTTPException 404 "Digital twin not found"), mkState (twins s) w1 (log s))
      /\ http_status (fst (get_digital_twin rid s)) = 404%Z).
Proof.
  intros Hget Hmiss.
  assert (Htruthy : truthy cached = false) by (by destruct Hmiss as [-> | ->]).
  split.
  - intros twin Htwin. by rewrite get_digital_twin_run, Hget, Htruthy, Htwin.
  - intros Hnone. by rewrite get_digital_twin_run, Hget, Htruthy, Hnone.
Qed.

(** X24. Reading back.  What [create_digital_twin] or [update_digital_twin]
    has just answered for a resource is what [get_digital_twin] answers for
    it on a cache miss. *)
Theorem get_digital_twin_reads_back
    (rid : string) (answer : pyval) (s s1 : PyState)
    (cached : option string) (w2 : World) :
  (exists initial_state, create_digital_twin rid initial_state s = (Return answer, s1))
  \/ (exists metrics, update_digital_twin rid metrics s = (Return answer, s1)) ->
  redis_get ("twin:" +:+ rid) (world s1) = (Return cached, w2) ->
  cached = None \/ cached = Some "" ->
  get_digital_twin rid s1 = (Return answer, mkState (twins s1) w2 (log s1)).
Proof.
  intros Hanswer Hget Hmiss.
  assert (Htruthy : truthy cached = false) by (by destruct Hmiss as [-> | ->]).
  assert (Hreg : exists twin, twins s1 !! rid = Some twin /\ answer = twin_dict twin).
  { destruct Hanswer as [[initial_state Hrun] | [metrics Hrun]].
    - unfold create_digital_twin, mbind, Py_bind, bind, ret in Hrun.
      destruct (create_twin_registry rid initial_state s)
        as (_ & o & s0 & Hcreate & Htw & Hret).
      rewrite Hcreate in Hrun. destruct o as [t0|e]; [|done].
      injection Hrun as <- <-. exists t0. split; [|done].
      by rewrite Htw, lookup_insert_eq, (Hret t0 eq_refl).
    - unfold update_digital_twin, mbind, Py_bind, bind, ret in Hrun.
      destruct (update_twin rid metrics s) as [[t'|e] s0] eqn:Hupdate; [|done].
      injection Hrun as <- <-. exists t'. split; [|done].
      by apply (update_twin_returned_is_registered rid metrics s). }
  destruct Hreg as (twin & Htwin & ->).
  by rewrite get_digital_twin_run, Hget, Htruthy, Htwin.
Qed.

(** X25. [retrain_models] is harmless to the service: it never raises,
    it leaves the twin registry as it is, and a failure of InfluxDB shows as
    one error line in the log and nothing else. *)
Theorem retrain_models_never_raises (s : PyState) :
  exists s',
    retrain_models s = (Return tt, s')
    /\ twins s' = twins s
    /\ (log s' = log s
        \/ exists e, log s' = log s ++ [ELogError ("Retraining error: " +:+ str_exn e)]).
Proof.
  unfold retrain_models, try_except, info, call_total, logger_error.
  unfold mbind, Py_bind, bind, call, emit. cbn [twins world log].
  destruct (influx_query_api (logger_info _ (world s))) as [[[]|e] w1];
    cbn [twins world log].
  - destruct (influx_query w1) as [[[]|e] w2]; cbn [twins world log].
    + eexists. split; [reflexivity|]. split; [done | by left].
    + eexists. split; [reflexivity|]. split; [done | right; by exists e].
  - eexists. split; [reflexivity|]. split; [done | right; by exists e].
Qed.

End twin_endpoints.

(** ** The registry in every reachable state *)

Section reachable_registry.
Context `{C : Collaborators}.

Lemma keyed_by_id_create tw rid initial_state r :
  keyed_by_id tw -> keyed_by_id (<[rid := created rid initial_state r]> tw).
Proof.
  intros Htw rid' t Hlook. destruct (decide (rid = rid')) as [<-|Hne].
  - rewrite lookup_insert_eq in Hlook. by injection Hlook as <-.
  - rewrite lookup_insert_ne in Hlook by done. by apply Htw.
Qed.

Lemma keyed_by_id_update tw rid t preds :
  tw !! rid = Some t -> keyed_by_id tw -> keyed_by_id (<[rid := updated t preds]> tw).
Proof.
  intros Ht Htw rid' t' Hlook. destruct (decide (rid = rid')) as [<-|Hne].
  - rewrite lookup_insert_eq in Hlook. injection Hlook as <-. cbn. by apply Htw.
  - rewrite lookup_insert_ne in Hlook by done. by apply Htw.
Qed.

(** X26. In every state the service can reach, every twin of the registry
    is stored under its own resource id and has an accuracy in [0.75, 0.99]. *)
Theorem reachable_registry_is_consistent
    (s : PyState) (rid : string) (twin : DigitalTwinState) :
  reachable s ->
  twins s !! rid = Some twin ->
  resource_id twin = rid /\ (0.75 <= accuracy twin <= 0.99)%Q.
Proof.
  intros Hreach Htwin. split.
  - destruct (reachable_keeps keyed_by_id any_event) with (s := s) as [Hkeyed _];
      try done.
    + intros tw rid' st r _. apply keyed_by_id_create.
    + apply keyed_by_id_update.
    + by apply Hkeyed.
  - by apply (reachable_accuracy_bounded s Hreach rid).
Qed.

End reachable_registry.

(** ** The further properties at concrete inputs *)

Lemma preprocess_metrics_ignores_history_witness :
  preprocess_metrics (Demo.window3 ++ Demo.window11) = preprocess_metrics Demo.window11.
Proof.
  apply (preprocess_metrics_ignores_history Demo.window3 Demo.window11). simpl. lia.
Defined.

Lemma preprocess_metrics_unit_interval_witness :
  Forall (fun x => 0 <= x <= 1)%Q (preprocess_metrics Demo.window11).
Proof.
  apply (preprocess_metrics_unit_interval Demo.window11).
  - simpl. lia.
  - unfold Demo.window11, percentages. cbn [map].
    repeat (constructor; [cbn; repeat split; discriminate|]). constructor.
Defined.

Lemma scoring_failure_is_returned_as_error_witness :
  fst (predict_performance (C := Faulty.collaborators) Demo.window3 Faulty.start)
    = Return {[ "error" := VStr "model: not fitted" ]}
  /\ fst (detect_anomalies (C := Faulty.collaborators) Demo.window3 Faulty.start)
     = Return {[ "error" := VStr "model: not fitted" ]}
  /\ fst (predict_cost (C := Faulty.collaborators) Demo.window3 "storage" Faulty.start)
     = Return {[ "error" := VStr "model: not fitted" ]}.
Proof.
  destruct (scoring_failure_is_returned_as_error (C := Faulty.collaborators)
              Demo.window3 "storage" Faulty.start) as (Hperf & Hanom & Hcost).
  split; [|split].
  - by rewrite (Hperf (Exception "model: not fitted") (Demo.mkWorld 0 true true) eq_refl).
  - by rewrite (Hanom (Demo.sample 80) (Exception "model: not fitted")
                      (Demo.mkWorld 0 true true) eq_refl eq_refl).
  - by rewrite (Hcost (Exception "model: not fitted") (Demo.mkWorld 0 true true)
                      ltac:(discriminate) eq_refl).
Defined.

Lemma optimization_potential_nonnegative_witness :
  exists q, num_of (max_0 ((100 - mean_cpu Demo.window3) * 0.01 * (0.5 * 100)))
            = Some q /\ (0 <= q)%Q.
Proof.
  apply (optimization_potential_nonnegative (C := Demo.collaborators) Demo.window3
           "compute" (Demo.start true true)
           {[ "predicted_daily_cost" := VFloat (0.5 * 100);
              "predicted_monthly_cost" := VFloat (0.5 * 100 * 30);
              "cost_trend" := VStr "increasing";
              "optimization_potential" :=
                max_0 ((100 - mean_cpu Demo.window3) * 0.01 * (0.5 * 100)) ]}).
  - reflexivity.
  - reflexivity.
Defined.

Lemma update_twin_leaves_other_twins_witness :
  twins (snd (update_twin (C := Demo.collaborators) "r2" Demo.window3
                          Demo.offline_with_twin)) !! "r1"
  = Some (mkTwin "r1" ∅ None 0.8).
Proof.
  rewrite (update_twin_leaves_other_twins (C := Demo.collaborators) "r2" "r1"
             Demo.window3 Demo.offline_with_twin); [reflexivity | discriminate].
Defined.

Lemma update_twin_provisions_missing_twin_witness :
  exists t' s',
    update_twin (C := Demo.collaborators) "r1" Demo.window3 (Demo.start true true)
      = (Return t', s')
    /\ state t' = {[ "status" := VStr "active" ]}
    /\ (0.751 <= accuracy t' < 0.951)%Q.
Proof.
  destruct (update_twin_provisions_missing_twin (C := Demo.collaborators)
              "r1" Demo.window3 (Demo.start true true)
              (created "r1" {[ "status" := VStr "active" ]} (inject_Z 0 / 20))
              (@mkState Demo.collaborators {[ "r1" := created "r1" {[ "status" := VStr "active" ]}
                                          (inject_Z 0 / 20) ]}
                       (Demo.mkWorld 1 true true)
                       [ERedisSetex "twin:r1" 3600 "{}"])
              ltac:(vm_compute; reflexivity) ltac:(vm_compute; reflexivity))
    as (t' & s' & Hrun & _ & _ & Hstate & _ & _ & Hacc).
  exists t', s'. split; [exact Hrun|]. split; [exact Hstate | exact Hacc].
Defined.

Lemma update_twin_propagates_failed_provisioning_witness :
  fst (update_twin (C := Demo.collaborators) "r1" Demo.window3 (Demo.start false true))
  = Raise (Exception "redis: connection refused").
Proof.
  destruct (update_twin_propagates_failed_provisioning (C := Demo.collaborators)
              "r1" Demo.window3 (Demo.start false true)
              (Exception "redis: connection refused")
              (@mkState Demo.collaborators {[ "r1" := created "r1" {[ "status" := VStr "active" ]}
                                          (inject_Z 0 / 20) ]}
                       (Demo.mkWorld 1 false true)
                       [ERedisSetex "twin:r1" 3600 "{}"])
              ltac:(vm_compute; reflexivity) ltac:(vm_compute; reflexivity))
    as [Hrun _].
  rewrite Hrun. reflexivity.
Defined.

Lemma update_twin_runs_three_predictions_witness :
  exists perf anom cost s',
    update_twin (C := Demo.collaborators) "r1" Demo.window3 Demo.offline_with_twin
    = (Return (updated (mkTwin "r1" ∅ None 0.8)
                       {[ "performance" := VDict perf; "anomaly" := VDict anom;
                          "cost" := VDict cost ]}), s').
Proof.
  destruct (update_twin_runs_three_predictions (C := Demo.collaborators)
              "r1" Demo.window3 Demo.offline_with_twin (mkTwin "r1" ∅ None 0.8)
              ltac:(vm_compute; reflexivity))
    as (perf & anom & cost & s1 & s2 & s3 & s' & _ & _ & _ & Hrun & _).
  exists perf, anom, cost, s'. exact Hrun.
Defined.

Lemma update_twin_empty_batch_witness :
  exists perf s',
    update_twin (C := Demo.collaborators) "r1" [] Demo.offline_with_twin
    = (Return (updated (mkTwin "r1" ∅ None 0.8)
                 {[ "performance" := VDict perf;
                    "anomaly" := VDict {[ "anomaly_score" := VFloat 0.0;
                                          "is_anomaly" := VBool false ]};
                    "cost" := VDict {[ "predicted_cost" := VFloat 0.0 ]} ]}), s').
Proof.
  destruct (update_twin_empty_batch (C := Demo.collaborators)
              "r1" Demo.offline_with_twin (mkTwin "r1" ∅ None 0.8)
              ltac:(vm_compute; reflexivity))
    as (perf & s1 & s' & _ & Hrun & _).
  exists perf, s'. exact Hrun.
Defined.

Lemma predict_metrics_caches_and_answers_witness :
  exists response : pydict,
    fst (predict_metrics (C := Demo.collaborators) (mkRequest "r1" [] "cost")
                         (Demo.start true true)) = Return response
    /\ response !! "result" = Some (VDict {[ "predicted_cost" := VFloat 0.0 ]}).
Proof.
  destruct (predict_metrics_caches_and_answers (C := Demo.collaborators)
              (mkRequest "r1" [] "cost") (predict_cost [] default_resource_type)
              (Demo.start true true) (Demo.start true true)
              {[ "predicted_cost" := VFloat 0.0 ]} "{}" (Demo.mkWorld 0 true true)
              eq_refl eq_refl eq_refl eq_refl)
    as (response & s' & Hrun & _ & _ & Hresult & _).
  exists response. rewrite Hrun. split; [reflexivity | exact Hresult].
Defined.

Lemma predict_metrics_fails_with_the_cache_witness :
  http_status (fst (predict_metrics (C := Demo.collaborators) (mkRequest "r1" [] "cost")
                                    (Demo.start false true))) = 500%Z.
Proof.
  apply (predict_metrics_fails_with_the_cache (C := Demo.collaborators)
           (mkRequest "r1" [] "cost") (predict_cost [] default_resource_type)
           (Demo.start false true) (Demo.start false true)
           {[ "predicted_cost" := VFloat 0.0 ]}
           (Exception "redis: connection refused") eq_refl eq_refl).
  right. exists "{}", (Demo.mkWorld 0 false true). split; reflexivity.
Defined.

Lemma get_digital_twin_prefers_cache_witness :
  fst (get_digital_twin (B := Cached.backend) "r1" Cached.warm) = Return (VDict ∅).
Proof.
  destruct (get_digital_twin_prefers_cache (B := Cached.backend) "r1" "{}"
              Cached.warm Cached.holding) as [Hrun _].
  - vm_compute. reflexivity.
  - discriminate.
  - rewrite Hrun. reflexivity.
Defined.

Lemma get_digital_twin_cache_miss_witness :
  http_status (fst (get_digital_twin (B := DemoBackend.backend) "r1"
                                     (Demo.start true true))) = 404%Z.
Proof.
  destruct (get_digital_twin_cache_miss (B := DemoBackend.backend) "r1" None
              (Demo.start true true) (Demo.mkWorld 0 true true)
              eq_refl (or_introl eq_refl))
    as [_ Hnone].
  exact (proj2 (Hnone eq_refl)).
Defined.

Lemma get_digital_twin_reads_back_witness :
  fst (get_digital_twin (B := DemoBackend.backend) "r1"
         (@mkState Demo.collaborators
            {[ "r1" := created "r1" ∅ (inject_Z 0 / 20) ]}
            (Demo.mkWorld 1 true true) [ERedisSetex "twin:r1" 3600 "{}"]))
  = Return (twin_dict (created "r1" ∅ (inject_Z 0 / 20))).
Proof.
  rewrite (get_digital_twin_reads_back (B := DemoBackend.backend) "r1"
             (twin_dict (created "r1" ∅ (inject_Z 0 / 20)))
             (Demo.start true true)
             (@mkState Demo.collaborators
                {[ "r1" := created "r1" ∅ (inject_Z 0 / 20) ]}
                (Demo.mkWorld 1 true true) [ERedisSetex "twin:r1" 3600 "{}"])
             None (Demo.mkWorld 1 true true)).
  - reflexivity.
  - left. exists ∅. vm_compute. reflexivity.
  - reflexivity.
  - left. reflexivity.
Defined.

Lemma reachable_registry_is_consistent_witness :
  resource_id (created "r1" ∅ (inject_Z 0 / 20)) = "r1"
  /\ (0.75 <= accuracy (created "r1" ∅ (inject_Z 0 / 20)) <= 0.99)%Q.
Proof.
  apply (reachable_registry_is_consistent (C := Demo.collaborators)
           (snd (create_twin (C := Demo.collaborators) "r1" ∅ (Demo.start true true)))
           "r1").
  - apply (reach_create (C := Demo.collaborators)), (reach_start (C := Demo.collaborators)).
  - vm_compute. reflexivity.
Defined.

(** * The threshold decisions, in binary64 *)

Section binary64.
Import Binary64.
Context `{N : Numerics}.

Lemma np_square_of_differences (a b : list float) :
  np_square (zip_with PrimFloat.sub a b)
  = zip_with (fun x y => (x - y) * (x - y))%float a b.
Proof.
  unfold np_square. revert b.
  induction a as [|x a IH]; intros [|y b]; simpl; [done..|].
  by rewrite IH.
Qed.

(** C5. On a non-empty window, when the anomaly model answers a row of
    width 4, [is_anomaly] is true exactly when the reported reconstruction
    mean squared error strictly exceeds the double 0.1, as binary64 compares;
    an error equal to 0.1 gives false, and so does a NaN error; the reported
    threshold is 0.1 (and the confidence 0.92). *)
Theorem detect_anomalies_flags_above_threshold
    (metrics : list MetricData) (latest : MetricData) (s : PyState)
    (recon : list float) (w' : World) :
  last metrics = Some latest ->
  keras_predict Anomaly (scaled_fields latest) (world s) = (Return recon, w') ->
  length recon = 4%nat ->
  let mse := mean_squared_error (scaled_fields latest) recon in
  exists (result : pydict) (flag : bool),
    detect_anomalies metrics s
      = (Return result,
         mkState w' (log s ++ [EModelPredict Anomaly (scaled_fields latest)]))
    /\ result !! "anomaly_score" = Some (VFloat mse)
    /\ result !! "is_anomaly" = Some (VBool flag)
    /\ (flag = true <-> exceeds mse 0.1)
    /\ (mse = 0.1%float -> flag = false)
    /\ (mse = nan -> flag = false)
    /\ result !! "threshold" = Some (VFloat 0.1)
    /\ result !! "confidence" = Some (VFloat 0.92).
Proof.
  intros Hlast Hmodel Hwidth mse.
  exists {[ "anomaly_score" := VFloat mse; "is_anomaly" := VBool (0.1 <? mse)%float;
            "threshold" := VFloat 0.1; "confidence" := VFloat 0.92 ]},
         (0.1 <? mse)%float.
  split; [|split; [done|]; split; [done|]; split; [done|];
           split; [|split; [|by split]]].
  - unfold detect_anomalies, try_except, model_predict, np_sub.
    assert (Hlen : (length metrics <? 1)%nat = false)
      by (destruct metrics; [done | by apply Nat.ltb_ge; simpl; lia]).
    rewrite Hlen, Hlast.
    unfold mbind, Py_bind, bind, emit, call, ret. cbn [world log].
    rewrite Hmodel, Hwidth. cbn [length scaled_fields Nat.eqb].
    by rewrite np_square_of_differences.
  - by intros ->.
  - by intros ->.
Qed.

(** C6. On a non-empty window, when the cost model answers a first output
    [c], the daily cost is c * 100, the monthly cost is the daily cost times
    30, the trend is "increasing" exactly when the mean CPU over all samples of
    the window strictly exceeds 70, as binary64 compares, and "stable"
    otherwise (a mean of exactly 70 included), and the optimization potential
    is max(0, (100 - mean_cpu) * 0.01 * daily_cost): that amount when it
    exceeds 0 and 0 otherwise. *)
Theorem predict_cost_trend_and_amounts
    (metrics : list MetricData) (resource_type : string) (s : PyState)
    (output : list float) (c : float) (w' : World) :
  metrics <> [] ->
  keras_predict Cost (cost_features metrics resource_type) (world s) = (Return output, w') ->
  output !! 0%nat = Some c ->
  let daily := (c * 100)%float in
  let amount := ((100 - mean_cpu metrics) * 0.01 * daily)%float in
  exists (result : pydict) (trend : string) (potential : pyval),
    fst (predict_cost metrics resource_type s) = Return result
    /\ result !! "predicted_daily_cost" = Some (VFloat daily)
    /\ result !! "predicted_monthly_cost" = Some (VFloat (daily * 30))
    /\ result !! "cost_trend" = Some (VStr trend)
    /\ (trend = "increasing" <-> exceeds (mean_cpu metrics) 70)
    /\ (trend = "stable" <-> ~ exceeds (mean_cpu metrics) 70)
    /\ (mean_cpu metrics = 70%float -> trend = "stable")
    /\ result !! "optimization_potential" = Some potential
    /\ (exceeds amount 0 -> potential = VFloat amount)
    /\ (~ exceeds amount 0 -> potential = VInt 0).
Proof.
  intros Hne Hmodel Hout daily amount.
  exists {[ "predicted_daily_cost" := VFloat daily;
            "predicted_monthly_cost" := VFloat (daily * 30);
            "cost_trend" := VStr (if (70 <? mean_cpu metrics)%float
                                  then "increasing" else "stable");
            "optimization_potential" := max_0 amount ]},
         (if (70 <? mean_cpu metrics)%float then "increasing" else "stable"),
         (max_0 amount).
  split; [|split; [done|]; split; [done|]; split; [done|];
           split; [|split; [|split; [|split; [done|]; split]]]].
  - unfold predict_cost, try_except, model_predict, index.
    assert (Hlen : (length metrics <? 1)%nat = false)
      by (destruct metrics; [done | by apply Nat.ltb_ge; simpl; lia]).
    rewrite Hlen.
    unfold mbind, Py_bind, bind, emit, call, ret. cbn [world log].
    by rewrite Hmodel, Hout.
  - unfold exceeds. by destruct (70 <? mean_cpu metrics)%float.
  - unfold exceeds. destruct (70 <? mean_cpu metrics)%float; [|done].
    split; [done | by intros []].
  - by intros ->.
  - unfold exceeds, max_0. by intros ->.
  - unfold exceeds, max_0. by destruct (0 <? amount)%float.
Qed.

End binary64.

Lemma detect_anomalies_flags_above_threshold_witness :
  exists result : Binary64.pydict,
    fst (Binary64.detect_anomalies [Binary64.boundary_sample] Binary64.start)
      = Return result
    /\ result !! "anomaly_score" = Some (Binary64.VFloat 0.1)
    /\ result !! "is_anomaly" = Some (Binary64.VBool false).
Proof.
  destruct (detect_anomalies_flags_above_threshold (N := Binary64.demo)
              [Binary64.boundary_sample] Binary64.boundary_sample Binary64.start
              [0.5; 0.5; 0.5; 0.5]%float tt eq_refl eq_refl eq_refl)
    as (result & flag & Hrun & Hscore & Hflag & _ & Hboundary & _).
  exists result. rewrite Hrun. split; [reflexivity|]. split; [exact Hscore|].
  rewrite Hflag, (Hboundary eq_refl). reflexivity.
Defined.

Lemma predict_cost_trend_and_amounts_witness :
  exists result : Binary64.pydict,
    fst (Binary64.predict_cost Binary64.boundary_window "compute" Binary64.start)
      = Return result
    /\ result !! "cost_trend" = Some (Binary64.VStr "stable").
Proof.
  destruct (predict_cost_trend_and_amounts (N := Binary64.demo)
              Binary64.boundary_window "compute" Binary64.start
              [0.5%float] 0.5%float tt ltac:(discriminate) eq_refl eq_refl)
    as (result & trend & potential & Hrun & _ & _ & Htrend & _ & _ & Hboundary & _).
  exists result. split; [exact Hrun|].
  rewrite Htrend, (Hboundary eq_refl). reflexivity.
Defined.
